(** * erp-backend: the authorization core

    A shallow embedding of [middleware/auth.js], [helpers/tokens.js] and
    [Database.isUserLinkedToDatabase] ([models/database.js]), together with
    the properties of the authorization model that the specification states
    about them.

    A middleware is a function of the request context that returns or
    throws; [async] functions are read as the synchronous ones, a rejected
    promise being a thrown error.  The collaborators that are not part of
    the repository ([jsonwebtoken], the [db] module, Express) appear as
    interfaces, each with a small reference implementation on which the
    examples are evaluated. *)

From Stdlib Require Import ZArith Ascii String.
From stdpp Require Import base option strings pretty gmap fin_maps list.

Local Open Scope string_scope.

(* [simpl] unfolds string concatenation on a constructor, as it does for lists. *)
#[local] Arguments String.append !_ _ / : simpl nomatch.

(** ** JavaScript values

    The claims object, the headers and the route parameters are flat JSON
    records: their properties are [undefined], [null], booleans, numbers or
    strings.  Numbers are the integers (the ids of the schema are [SERIAL]
    columns, [iat] is a number of seconds). *)

Module Js.

Inductive jsval : Type :=
| JUndefined
| JNull
| JBool (b : bool)
| JNum (n : Z)
| JStr (s : string).

#[global] Instance jsval_eq_dec : EqDecision jsval.
Proof. solve_decision. Defined.

#[global] Instance jsval_inhabited : Inhabited jsval := populate JUndefined.

(** An object is a finite map from property names to values. *)
Abbreviation obj := (gmap string jsval).

(** [ToBoolean]: what [if (v)], [!v], [&&] and [||] test. *)
Definition truthy (v : jsval) : bool :=
  match v with
  | JUndefined | JNull => false
  | JBool b => b
  | JNum n => negb (n =? 0)%Z
  | JStr s => negb (String.eqb s "")
  end.

(** [a === b] on the values above. *)
Definition strict_eq (a b : jsval) : bool :=
  match a, b with
  | JUndefined, JUndefined => true
  | JNull, JNull => true
  | JBool x, JBool y => Bool.eqb x y
  | JNum x, JNum y => (x =? y)%Z
  | JStr x, JStr y => String.eqb x y
  | _, _ => false
  end.

(** [a && b] and [a || b] return one of their operands. *)
Definition js_and (a b : jsval) : jsval := if truthy a then b else a.
Definition js_or (a b : jsval) : jsval := if truthy a then a else b.

(** [o.k]: a property that is not there reads as [undefined]. *)
Definition prop (o : obj) (k : string) : jsval := default JUndefined (o !! k).

(** [o?.k] where [o] may be [undefined]. *)
Definition opt_prop (o : option obj) (k : string) : jsval :=
  match o with
  | None => JUndefined
  | Some o => prop o k
  end.

(** A string-valued table (headers, route parameters) read as a value. *)
Definition str_prop (t : gmap string string) (k : string) : jsval :=
  match t !! k with
  | None => JUndefined
  | Some s => JStr s
  end.

(** What [JSON.stringify] followed by [JSON.parse] makes of a flat object:
    the properties whose value is [undefined] are dropped. *)
Definition json_roundtrip (o : obj) : obj :=
  omap (fun v => match v with JUndefined => None | _ => Some v end) o.

(** *** Strings

    Header values reach the program as strings of Latin-1 code points, so a
    character is a byte.  [String.prototype.trim] removes white space and
    line terminators; in that range these are TAB, LF, VT, FF, CR, SPACE and
    NBSP (U+00A0). *)

Definition is_js_space (c : ascii) : bool :=
  let n := nat_of_ascii c in
  (((9 <=? n) && (n <=? 13)) || (n =? 32) || (n =? 160))%nat.

Fixpoint trim_start (s : string) : string :=
  match s with
  | EmptyString => EmptyString
  | String c r => if is_js_space c then trim_start r else s
  end.

Fixpoint trim_end (s : string) : string :=
  match s with
  | EmptyString => EmptyString
  | String c r =>
      match trim_end r with
      | EmptyString => if is_js_space c then EmptyString else String c EmptyString
      | r' => String c r'
      end
  end.

(** [s.trim()] *)
Definition js_trim (s : string) : string := trim_end (trim_start s).

Fixpoint drop_chars (n : nat) (s : string) : string :=
  match n, s with
  | O, _ => s
  | S n, String _ r => drop_chars n r
  | S _, EmptyString => EmptyString
  end.

(** [s] begins with [p]. *)
Fixpoint starts_with (p s : string) : bool :=
  match p, s with
  | EmptyString, _ => true
  | String a p', String b s' => Ascii.eqb a b && starts_with p' s'
  | String _ _, EmptyString => false
  end.

(** [s.replace(/^[Bb]earer /, "")]: the pattern is anchored at the start, its
    first letter is [B] or [b], the other six characters are literal. *)
Definition replace_bearer (s : string) : string :=
  match s with
  | String c r =>
      if (Ascii.eqb c "B" || Ascii.eqb c "b") && starts_with "earer " r
      then drop_chars 6 r
      else s
  | EmptyString => s
  end.

(** ASCII lower-casing, used to speak about the capitalization of a word. *)
Definition ascii_lower (c : ascii) : ascii :=
  let n := nat_of_ascii c in
  if ((65 <=? n) && (n <=? 90))%nat then ascii_of_nat (n + 32) else c.

Fixpoint lower (s : string) : string :=
  match s with
  | EmptyString => EmptyString
  | String c r => String (ascii_lower c) (lower r)
  end.

End Js.
Import Js.


(** ** Errors *)

(** Modelled from the spec: [expressError.js] is not among the sources.  An
    [UnauthorizedError] carries the message it was made with, if any, and
    the HTTP status 401 ("401 for all Unauthorized kinds").  The other two
    kinds are what the collaborators raise: [DataAccessError] is the
    rejection of [db.query], [JwtError] an exception of the [jsonwebtoken]
    library; neither has a [status] property. *)
Inductive error : Type :=
| UnauthorizedError (message : option string)
| DataAccessError (cause : string)
| JwtError (message : string).

Definition is_unauthorized (e : error) : bool :=
  match e with
  | UnauthorizedError _ => true
  | _ => false
  end.

(** [err.status] *)
Definition err_status (e : error) : option Z :=
  match e with
  | UnauthorizedError _ => Some 401%Z
  | DataAccessError _ | JwtError _ => None
  end.

(** ** The request context and the effects of a middleware *)

Record Request : Type := mkRequest {
  headers : gmap string string;   (* lower-cased header name -> value *)
  params : gmap string string     (* route parameters *)
}.

Record Locals : Type := mkLocals {
  user : option obj               (* [res.locals.user]; [None] is undefined *)
}.

Record Response : Type := mkResponse {
  locals : Locals
}.

(** What [console.log] and [console.error] were given after their label. *)
Inductive logged : Type :=
| LoggedUser (u : option obj)
| LoggedHeaders (h : gmap string string)
| LoggedError (e : error).

Record Ctx : Type := mkCtx {
  req : Request;
  res : Response;
  console : list (string * logged)
}.

(** A computation reads and writes the context and returns or throws. *)
Definition Eff (A : Type) : Type := Ctx -> (error + A) * Ctx.

Module Eff.

Definition ret {A} (a : A) : Eff A := fun c => (inr a, c).

Definition bind {A B} (m : Eff A) (k : A -> Eff B) : Eff B :=
  fun c =>
    match m c with
    | (inr a, c') => k a c'
    | (inl e, c') => (inl e, c')
    end.

Definition throw {A} (e : error) : Eff A := fun c => (inl e, c).

(** [try { m } catch (err) { h err }] *)
Definition try_catch {A} (m : Eff A) (h : error -> Eff A) : Eff A :=
  fun c =>
    match m c with
    | (inr a, c') => (inr a, c')
    | (inl e, c') => h e c'
    end.

(** The result of a call that returns or throws without touching the context. *)
Definition lift {A} (r : error + A) : Eff A := fun c => (r, c).

Definition ask : Eff Ctx := fun c => (inr c, c).

(** [res.locals.user = u] *)
Definition set_user (u : obj) : Eff unit :=
  fun c => (inr tt, mkCtx (req c) (mkResponse (mkLocals (Some u))) (console c)).

(** [console.log(label, v)] and [console.error(label, v)] *)
Definition console_log (label : string) (v : logged) : Eff unit :=
  fun c => (inr tt, mkCtx (req c) (res c) (console c ++ [(label, v)])).

End Eff.

Notation "'let!' x ':=' m 'in' k" := (Eff.bind m (fun x => k))
  (at level 10, x name, m at level 100, k at level 200, only parsing).
Notation "m ';;;' k" := (Eff.bind m (fun _ => k))
  (at level 100, k at level 200, right associativity, only parsing).

(** What a middleware hands to Express when it returns: [next()] or [next(err)]. *)
Inductive signal : Type :=
| Next
| NextErr (e : error).

Abbreviation middleware := (Eff signal).

(** Express sends what a middleware throws (or rejects with) to the error
    handlers, as it does with the argument of [next(err)]. *)
Definition settle (r : error + signal) : signal :=
  match r with
  | inr s => s
  | inl e => NextErr e
  end.

Definition gate (mw : middleware) (c : Ctx) : signal := settle (mw c).1.

(** A route [router.METHOD(path, mw, handler)]: the handler runs after the
    middleware has called [next()] and not otherwise. *)
Definition route {R} (mw : middleware) (handler : Eff R) : Eff R :=
  let! s := mw in
  match s with
  | Next => handler
  | NextErr e => Eff.throw e
  end.

(** The generic error handler of [app.js]: [err.status || 500]. *)
Definition response_status (e : error) : Z :=
  match err_status e with
  | Some s => if (s =? 0)%Z then 500%Z else s
  | None => 500%Z
  end.

(** ** Collaborators *)

(** The registered claim names that [jwt.sign] validates or fills in. *)
Definition registered_claims : list string :=
  ["iat"; "exp"; "nbf"; "aud"; "iss"; "sub"; "jti"].

Definition unregistered (p : obj) : Prop :=
  Forall (fun k => p !! k = None) registered_claims.

(** The [jsonwebtoken] library, as the program uses it: [jwt.sign(payload,
    key)] and [jwt.verify(token, key)], both without options.  [inl] is a
    thrown exception.  What the program relies on:
    - [sign] throws on an empty key and signs any payload otherwise;
    - [sign] is called without [noTimestamp], so it adds the claim [iat],
      the clock reading in seconds ([jwt_sign] takes it as an argument), to a
      payload that has none, and the payload travels as JSON;
    - [verify] with the key of [sign] returns that payload;
    - a token is base64url text and dots: [trim] leaves it as it is;
    - [verify] throws on the empty string ("jwt must be provided"). *)
Class Jwt : Type := mkJwt {
  jwt_sign : Z -> obj -> string -> error + string;
  jwt_verify : string -> string -> error + obj;
  jwt_sign_total : forall now p k,
    k <> "" -> unregistered p -> exists t, jwt_sign now p k = inr t;
  jwt_verify_sign : forall now p k t,
    unregistered p ->
    jwt_sign now p k = inr t ->
    jwt_verify t k = inr (<["iat" := JNum now]> (json_roundtrip p));
  jwt_sign_trimmed : forall now p k t,
    jwt_sign now p k = inr t -> js_trim t = t;
  jwt_verify_empty : forall k, exists e, jwt_verify "" k = inl e
}.

(** The [db] module: [db.query(text, values)] resolves with rows or rejects. *)
Record Db : Type := mkDb {
  db_query : string -> list jsval -> string + list obj
}.

(** ** The program *)

Section Program.

Context {J : Jwt}.

(** [SECRET_KEY] of [config.js], which is not among the sources. *)
Variable SECRET_KEY : string.

Variable db : Db.

(** [helpers/tokens.js] *)
Definition createToken (now : Z) (u : obj) : error + string :=
  let payload : obj := {[ "email" := prop u "email"; "role" := prop u "role" ]} in
  jwt_sign now payload SECRET_KEY.

(** [middleware/auth.js] *)

(** The token that [authenticateJWT] makes of a header value:
    [authHeader.replace(/^[Bb]earer /, "").trim()]. *)
Definition authToken (authHeader : string) : string :=
  js_trim (replace_bearer authHeader).

(** [req.headers?.authorization] is tested for truthiness; the assignment
    to [res.locals.user] is inside the [try], and the [catch] is empty. *)
Definition authenticateJWT : middleware :=
  let! c := Eff.ask in
  (match headers (req c) !! "authorization" with
   | Some authHeader =>
       if truthy (JStr authHeader) then
         let token := authToken authHeader in
         Eff.try_catch
           (let! payload := Eff.lift (jwt_verify token SECRET_KEY) in
            Eff.set_user payload)
           (fun _ => Eff.ret tt)
       else Eff.ret tt
   | None => Eff.ret tt
   end) ;;;
  Eff.ret Next.

Definition ensureSuperAdmin : middleware :=
  let! c := Eff.ask in
  if strict_eq (opt_prop (user (locals (res c))) "role") (JStr "super_admin")
  then Eff.ret Next
  else Eff.throw (UnauthorizedError None).

Definition ensureLoggedIn : middleware :=
  let! c := Eff.ask in
  if truthy (opt_prop (user (locals (res c))) "email")
  then Eff.ret Next
  else Eff.throw (UnauthorizedError None).

(** [currentUser && (currentUser === req.params.email)] *)
Definition ensureCorrectUser : middleware :=
  let! c := Eff.ask in
  let currentUser := opt_prop (user (locals (res c))) "email" in
  if truthy (js_and currentUser
               (JBool (strict_eq currentUser (str_prop (params (req c)) "email"))))
  then Eff.ret Next
  else Eff.throw (UnauthorizedError None).

(** [isSuperAdmin || (currentUser && currentUser === req.params.email)] *)
Definition ensureSuperAdminOrCorrectUser : middleware :=
  let! c := Eff.ask in
  let currentUser := opt_prop (user (locals (res c))) "email" in
  let isSuperAdmin :=
    JBool (strict_eq (opt_prop (user (locals (res c))) "role") (JStr "super_admin")) in
  if truthy (js_or isSuperAdmin
               (js_and currentUser
                  (JBool (strict_eq currentUser (str_prop (params (req c)) "email")))))
  then Eff.ret Next
  else Eff.throw (UnauthorizedError None).

(** The statement of [Database.isUserLinkedToDatabase] (its line breaks
    written as spaces). *)
Definition membership_sql : string :=
  "SELECT user_id FROM user_databases WHERE user_id = $1 AND database_id = $2".

(** [models/database.js]: [result.rows.length > 0], and a [catch] that logs
    and throws the error again. *)
Definition isUserLinkedToDatabase (userId databaseId : jsval) : Eff bool :=
  Eff.try_catch
    (let! rows :=
       Eff.lift (match db_query db membership_sql [userId; databaseId] with
                 | inl cause => inl (DataAccessError cause)
                 | inr rows => inr rows
                 end) in
     Eff.ret (0 <? length rows)%nat)
    (fun err =>
       Eff.console_log "Error checking if user is linked to database:" (LoggedError err) ;;;
       Eff.throw err).

(** [middleware/auth.js]: the two [console.log] calls come before the
    [try]; the [catch] returns [next(err)] for whatever was thrown inside. *)
Definition ensureDatabaseUser : middleware :=
  let! c := Eff.ask in
  Eff.console_log "res.locals.user: " (LoggedUser (user (locals (res c)))) ;;;
  Eff.console_log "databaseId: " (LoggedHeaders (headers (req c))) ;;;
  Eff.try_catch
    (let userId := opt_prop (user (locals (res c))) "id" in
     let databaseId := str_prop (headers (req c)) "database-id" in
     if negb (truthy userId) then
       Eff.throw (UnauthorizedError (Some "User authentication required."))
     else if negb (truthy databaseId) then
       Eff.throw (UnauthorizedError (Some "Database connection required."))
     else
       let! isAuthorized := isUserLinkedToDatabase userId databaseId in
       if negb isAuthorized then
         Eff.throw (UnauthorizedError (Some "User not authorized to access this database."))
       else Eff.ret Next)
    (fun err => Eff.ret (NextErr err)).

End Program.

(** ** A reference implementation of the collaborators

    [JwtRef] is a small token format that meets the [Jwt] interface: a token
    is the letter [J], the key and the JSON payload in a self-delimiting
    encoding.  It stands for the library in the examples; it makes no claim
    of secrecy. *)

Module JwtRef.

Fixpoint enc_str (s : string) : string :=
  match s with
  | EmptyString => "."
  | String c r => String "+" (String c (enc_str r))
  end.

Fixpoint dec_str (s : string) : option (string * string) :=
  match s with
  | String t r =>
      if Ascii.eqb t "." then Some (EmptyString, r)
      else if Ascii.eqb t "+" then
        match r with
        | String c r' =>
            match dec_str r' with
            | Some (x, rest) => Some (String c x, rest)
            | None => None
            end
        | EmptyString => None
        end
      else None
  | EmptyString => None
  end.

Fixpoint enc_pos (p : positive) : string :=
  match p with
  | xH => "H"
  | xO q => String "O" (enc_pos q)
  | xI q => String "I" (enc_pos q)
  end.

Fixpoint dec_pos (s : string) : option (positive * string) :=
  match s with
  | String t r =>
      if Ascii.eqb t "H" then Some (xH, r)
      else if Ascii.eqb t "O" then
        match dec_pos r with Some (q, rest) => Some (xO q, rest) | None => None end
      else if Ascii.eqb t "I" then
        match dec_pos r with Some (q, rest) => Some (xI q, rest) | None => None end
      else None
  | EmptyString => None
  end.

Definition enc_val (v : jsval) : string :=
  match v with
  | JUndefined => "u"
  | JNull => "n"
  | JBool true => "t"
  | JBool false => "f"
  | JNum Z0 => "z"
  | JNum (Zpos p) => String "p" (enc_pos p)
  | JNum (Zneg p) => String "m" (enc_pos p)
  | JStr s => String "s" (enc_str s)
  end.

Definition dec_val (s : string) : option (jsval * string) :=
  match s with
  | String t r =>
      if Ascii.eqb t "u" then Some (JUndefined, r)
      else if Ascii.eqb t "n" then Some (JNull, r)
      else if Ascii.eqb t "t" then Some (JBool true, r)
      else if Ascii.eqb t "f" then Some (JBool false, r)
      else if Ascii.eqb t "z" then Some (JNum 0, r)
      else if Ascii.eqb t "p" then
        match dec_pos r with Some (q, rest) => Some (JNum (Zpos q), rest) | None => None end
      else if Ascii.eqb t "m" then
        match dec_pos r with Some (q, rest) => Some (JNum (Zneg q), rest) | None => None end
      else if Ascii.eqb t "s" then
        match dec_str r with Some (x, rest) => Some (JStr x, rest) | None => None end
      else None
  | EmptyString => None
  end.

Fixpoint enc_fields (l : list (string * jsval)) : string :=
  match l with
  | [] => ";"
  | (k, v) :: r => String "," (enc_str k ++ enc_val v ++ enc_fields r)
  end.

Fixpoint dec_fields (fuel : nat) (s : string) : option (list (string * jsval) * string) :=
  match fuel, s with
  | S fuel, String t r =>
      if Ascii.eqb t ";" then Some ([], r)
      else if Ascii.eqb t "," then
        match dec_str r with
        | Some (k, r1) =>
            match dec_val r1 with
            | Some (v, r2) =>
                match dec_fields fuel r2 with
                | Some (l, rest) => Some ((k, v) :: l, rest)
                | None => None
                end
            | None => None
            end
        | None => None
        end
      else None
  | _, _ => None
  end.

Definition token (key : string) (payload : obj) : string :=
  String "J" (enc_str key ++ enc_fields (map_to_list payload)).

Definition sign (now : Z) (p : obj) (key : string) : error + string :=
  if String.eqb key "" then inl (JwtError "secretOrPrivateKey must have a value")
  else
    let body := json_roundtrip p in
    inr (token key (match body !! "iat" with
                    | Some _ => body
                    | None => <["iat" := JNum now]> body
                    end)).

Definition verify (t key : string) : error + obj :=
  match t with
  | String j r =>
      if Ascii.eqb j "J" then
        match dec_str r with
        | Some (k, r1) =>
            if String.eqb k key then
              match dec_fields (S (String.length r1)) r1 with
              | Some (l, EmptyString) => inr (list_to_map l)
              | _ => inl (JwtError "jwt malformed")
              end
            else inl (JwtError "invalid signature")
        | None => inl (JwtError "jwt malformed")
        end
      else inl (JwtError "jwt malformed")
  | EmptyString => inl (JwtError "jwt must be provided")
  end.

End JwtRef.

(** [PgRef] is a store with the [user_databases] relation of the schema:
    composite key [(user_id, database_id)].  It answers the one statement of
    [isUserLinkedToDatabase]; a bound value that does not read as an integer
    is an error of the server, and so is any query while the store is down. *)

Module PgRef.

Record store : Type := mkStore {
  reachable : bool;
  user_databases : list (Z * Z)
}.

Fixpoint digits (acc : Z) (s : string) : option Z :=
  match s with
  | EmptyString => Some acc
  | String c r =>
      let n := nat_of_ascii c in
      if ((48 <=? n) && (n <=? 57))%nat
      then digits (10 * acc + Z.of_nat (n - 48)) r
      else None
  end.

Definition int4 (v : jsval) : option Z :=
  match v with
  | JNum n => Some n
  | JStr (String c r as s) =>
      if Ascii.eqb c "-" then
        match r with
        | EmptyString => None
        | _ => Z.opp <$> digits 0 r
        end
      else digits 0 s
  | _ => None
  end.

Definition query (st : store) (text : string) (values : list jsval) : string + list obj :=
  if negb (reachable st) then inl "connect ECONNREFUSED"
  else if negb (String.eqb text membership_sql) then inl "statement not supported"
  else
    match values with
    | [u; d] =>
        match int4 u, int4 d with
        | Some u, Some d =>
            inr (map (fun r => {[ "user_id" := JNum r.1 ]})
                   (filter (fun r => r = (u, d)) (user_databases st)))
        | _, _ => inl "invalid input syntax for type integer"
        end
    | _ => inl "bind message supplies the wrong number of parameters"
    end.

Definition db (st : store) : Db := mkDb (query st).

End PgRef.

(** ** Vocabulary of the properties *)

(** The context in which [res.locals.user] has been assigned. *)
Definition with_user (u : obj) (c : Ctx) : Ctx :=
  mkCtx (req c) (mkResponse (mkLocals (Some u))) (console c).

(** The two lines that [ensureDatabaseUser] prints before it decides. *)
Definition entry_log (c : Ctx) : Ctx :=
  mkCtx (req c) (res c)
    ((console c ++ [("res.locals.user: ", LoggedUser (user (locals (res c))))])
       ++ [("databaseId: ", LoggedHeaders (headers (req c)))]).

(** The five predicates, by the names of the specification. *)
Inductive predicate : Type :=
| AuthenticatedOnly
| PrivilegedOnly
| SubjectMatch
| PrivilegedOrSubjectMatch
| ResourceMember.

Definition predicate_mw (db : Db) (p : predicate) : middleware :=
  match p with
  | AuthenticatedOnly => ensureLoggedIn
  | PrivilegedOnly => ensureSuperAdmin
  | SubjectMatch => ensureCorrectUser
  | PrivilegedOrSubjectMatch => ensureSuperAdminOrCorrectUser
  | ResourceMember => ensureDatabaseUser db
  end.

(** The payload that [createToken] signs. *)
Definition payload_of (u : obj) : obj :=
  {[ "email" := prop u "email"; "role" := prop u "role" ]}.

(** Unfolds the small effect language, so that a middleware applied to a
    context computes. *)
Ltac eff_unfold :=
  unfold gate, settle, route, Eff.bind, Eff.try_catch, Eff.lift, Eff.ask,
    Eff.ret, Eff.throw, Eff.set_user, Eff.console_log in *.

(** ** Sample requests

    The values on which the properties below are evaluated. *)

Module Sample.

(** A fresh context: the given headers and route parameters, and the
    identity that is in [res.locals] (none when the request arrives). *)
Definition ctx_of (hs ps : list (string * string)) (u : option obj) : Ctx :=
  mkCtx (mkRequest (list_to_map hs) (list_to_map ps)) (mkResponse (mkLocals u)) [].

Definition key : string := "secret-dev".

Definition clock : Z := 1700000000.

(** A row of [users], as [User.authenticate] returns it. *)
Definition ada : obj :=
  {[ "id" := JNum 5; "email" := JStr "ada@erp.io";
     "full_name" := JStr "Ada"; "role" := JStr "user" ]}.

(** Claims with [email] and [role] only. *)
Definition ada_claims : obj :=
  {[ "email" := JStr "ada@erp.io"; "role" := JStr "user" ]}.

(** [ada] is a member of database 9. *)
Definition store_up : PgRef.store := PgRef.mkStore true [(5, 9)%Z].
Definition store_down : PgRef.store := PgRef.mkStore false [(5, 9)%Z].

End Sample.

(** ** The routers

    [routes/users.js], [routes/databases.js] and [routes/apps.js] register
    their routes as a method, a path and, before the handler, at most one
    predicate of [middleware/auth.js].  The tables list them in the order of
    registration. *)

Module Routes.

Inductive method : Type := GET | POST | PATCH | DELETE.

Record entry : Type := mkEntry {
  r_method : method;
  r_path : string;
  r_guard : option predicate
}.

(** [routes/users.js] *)
Definition users : list entry :=
  [ mkEntry GET "/" (Some PrivilegedOnly);
    mkEntry GET "/:email" (Some SubjectMatch);
    mkEntry PATCH "/:email" (Some SubjectMatch);
    mkEntry DELETE "/:email" (Some PrivilegedOrSubjectMatch) ].

(** [routes/databases.js] *)
Definition databases : list entry :=
  [ mkEntry GET "/" (Some PrivilegedOnly);
    mkEntry GET "/user/:userId" (Some PrivilegedOrSubjectMatch);
    mkEntry GET "/:id" (Some PrivilegedOrSubjectMatch);
    mkEntry POST "/" (Some PrivilegedOnly);
    mkEntry PATCH "/:id" (Some PrivilegedOrSubjectMatch);
    mkEntry DELETE "/:id" (Some PrivilegedOrSubjectMatch) ].

(** [routes/apps.js] *)
Definition apps : list entry :=
  [ mkEntry GET "/" (Some ResourceMember);
    mkEntry GET "/all" (Some PrivilegedOnly);
    mkEntry GET "/:id" None;
    mkEntry POST "/" (Some PrivilegedOnly);
    mkEntry PATCH "/:id" (Some PrivilegedOnly);
    mkEntry DELETE "/:id" (Some PrivilegedOnly) ].

(** [routes/auth.js] *)
Definition auth : list entry :=
  [ mkEntry POST "/token" None;
    mkEntry POST "/register" None ].

(** The segments of a path, cut at each [/]. *)
Fixpoint segments_go (cur : string) (s : string) : list string :=
  match s with
  | EmptyString => [String.rev cur]
  | String c r =>
      if Ascii.eqb c "/" then String.rev cur :: segments_go EmptyString r
      else segments_go (String c cur) r
  end.

Definition segments (path : string) : list string := segments_go EmptyString path.

(** The names of the parameters of a path: its segments [:name].  Express
    fills [req.params] with these names and no other. *)
Definition path_params (path : string) : list string :=
  omap (fun seg => match seg with
                   | String c name => if Ascii.eqb c ":" then Some name else None
                   | EmptyString => None
                   end) (segments path).

(** A request that was matched to the route has the parameters of its path. *)
Definition matched (e : entry) (c : Ctx) : Prop :=
  forall k, is_Some (params (req c) !! k) <-> k ∈ path_params (r_path e).

End Routes.

(** ** The models

    [helpers/sql.js], [models/database.js], [models/user.js],
    [models/app.js] and the start of [server.js]. *)

(** What the models throw.  [BadRequestError] and [NotFoundError] are classes
    of [expressError.js], which is not among the sources: only the class a
    [throw] names and the message it is given are kept.  [Raised] carries an
    error of the first part: the rejection of [db.query], or the
    [UnauthorizedError] of [User.authenticate].  [BcryptError] is a
    rejection of the [bcrypt] library, [ReferenceError] the exception of the
    language for a name that is not declared. *)
Inductive failure : Type :=
| Raised (e : error)
| BadRequestError (message : string)
| NotFoundError (message : string)
| BcryptError (cause : string)
| ReferenceError (name : string).

(** An object whose keys are enumerated in order, as [Object.keys],
    [Object.values] and the spread of a request body see it. *)
Abbreviation record := (list (string * jsval)).

(** [o.k] on such an object. *)
Fixpoint field (o : record) (k : string) : jsval :=
  match o with
  | [] => JUndefined
  | (k', v) :: r => if String.eqb k' k then v else field r k
  end.

(** [o.k = v] for a key that [o] has: the key keeps its place. *)
Fixpoint set_field (o : record) (k : string) (v : jsval) : record :=
  match o with
  | [] => []
  | (k', v') :: r => if String.eqb k' k then (k', v) :: r else (k', v') :: set_field r k v
  end.

(** The one-character string that holds a double quote (code 34). *)
Definition dquote : string :=
  String (Ascii false true false false false true false false) EmptyString.

(** [a.join(sep)] on an array of strings. *)
Fixpoint js_join (sep : string) (a : list string) : string :=
  match a with
  | [] => ""
  | [x] => x
  | x :: r => x ++ sep ++ js_join sep r
  end.

Module Sql.

Section Helper.

(** The text that a template literal prints for [({})[name]] when [name] is
    a property that every object inherits ([constructor], [toString], ...);
    [None] for the other names. *)
Variable inherited : string -> option string.

(** [jsToSql[colName] || colName], printed. *)
Definition column (jsToSql : gmap string string) (colName : string) : string :=
  match jsToSql !! colName with
  | Some s => if String.eqb s "" then colName else s
  | None =>
      match inherited colName with
      | Some text => text
      | None => colName
      end
  end.

(** The array [cols]. *)
Definition clauses (keys : list string) (jsToSql : gmap string string) : list string :=
  imap (fun idx colName =>
          dquote ++ column jsToSql colName ++ dquote ++ "=$" ++ pretty (idx + 1)%nat)
    keys.

(** [helpers/sql.js]: the result is the pair of [setCols] and [values]. *)
Definition sqlForPartialUpdate (dataToUpdate : record) (jsToSql : gmap string string)
  : failure + (string * list jsval) :=
  let keys := dataToUpdate.*1 in
  if (length keys =? 0)%nat then inl (BadRequestError "No data to update")
  else inr (js_join ", " (clauses keys jsToSql), dataToUpdate.*2).

End Helper.

End Sql.

(** *** The collaborators of the models

    The store behind [db.query] changes with the statements it runs, so it
    is a state here; [bcrypt], the configuration and the printing of a value
    in a template literal come with it. *)
Class Env : Type := mkEnv {
  Store : Type;
  (** [db.query(text, values)]: rows or a rejection, and the store after. *)
  db_exec : string -> list jsval -> Store -> (string + list obj) * Store;
  (** [bcrypt.hash(data, rounds)] and [bcrypt.compare(data, hash)] *)
  bcrypt_hash : jsval -> Z -> string + string;
  bcrypt_compare : jsval -> jsval -> string + bool;
  (** [config.js] and [process.env] *)
  BCRYPT_WORK_FACTOR : Z;
  SUPER_ADMIN_EMAIL : jsval;
  SUPER_ADMIN_PASSWORD : jsval;
  SUPER_ADMIN_FULL_NAME : jsval;
  PORT : jsval;
  (** The text of a value in a template literal. *)
  to_text : jsval -> string;
  (** See [Sql.column]. *)
  inherited_text : string -> option string
}.

(** What was handed to [console.log] or [console.error] after the label. *)
Inductive shown : Type :=
| ShownValue (v : jsval)
| ShownRow (r : option obj)
| ShownFailure (f : failure).

Inductive event : Type :=
| ConsoleLog (label : string) (args : list shown)
| ConsoleError (label : string) (args : list shown)
| Listen (port : jsval)
| Exit (code : Z).

(** The store, the statements sent to it so far with their values, and what
    the process has printed and done. *)
Record World {E : Env} : Type := mkWorld {
  store : Store;
  queries : list (string * list jsval);
  terminal : list event
}.

Arguments mkWorld {E} store queries terminal.

Definition Run {E : Env} (A : Type) : Type := World -> (failure + A) * World.

Module Run.

Section Ops.

Context {E : Env}.

Definition ret {A} (a : A) : Run A := fun w => (inr a, w).

Definition bind {A B} (m : Run A) (k : A -> Run B) : Run B :=
  fun w =>
    match m w with
    | (inr a, w') => k a w'
    | (inl f, w') => (inl f, w')
    end.

Definition throw {A} (f : failure) : Run A := fun w => (inl f, w).

Definition try_catch {A} (m : Run A) (h : failure -> Run A) : Run A :=
  fun w =>
    match m w with
    | (inr a, w') => (inr a, w')
    | (inl f, w') => h f w'
    end.

Definition emit (e : event) : Run unit :=
  fun w => (inr tt, mkWorld (store w) (queries w) (terminal w ++ [e])).

(** [await db.query(text, values)] *)
Definition query (text : string) (values : list jsval) : Run (list obj) :=
  fun w =>
    let (r, s) := db_exec text values (store w) in
    (match r with
     | inl cause => inl (Raised (DataAccessError cause))
     | inr rows => inr rows
     end,
     mkWorld s (queries w ++ [(text, values)]) (terminal w)).

(** [await bcrypt.hash(data, BCRYPT_WORK_FACTOR)] *)
Definition hash (data : jsval) : Run string :=
  fun w =>
    (match bcrypt_hash data BCRYPT_WORK_FACTOR with
     | inl cause => inl (BcryptError cause)
     | inr h => inr h
     end, w).

(** [await bcrypt.compare(data, hash)] *)
Definition compare (data h : jsval) : Run bool :=
  fun w =>
    (match bcrypt_compare data h with
     | inl cause => inl (BcryptError cause)
     | inr b => inr b
     end, w).

End Ops.

End Run.

Notation "'run!' x ':=' m 'in' k" := (Run.bind m (fun x => k))
  (at level 10, x name, m at level 100, k at level 200, only parsing).
Notation "m ';;!' k" := (Run.bind m (fun _ => k))
  (at level 100, k at level 200, right associativity, only parsing).

(** A column alias [AS "name"] of a statement. *)
Definition quoted (name : string) : string := dquote ++ name ++ dquote.

(** [models/database.js].  The statements are written on one line, their
    runs of white space as one space; a call of [db.query] with the
    statement alone is recorded with no values. *)
Module Database.

Section Model.

Context {E : Env}.

Definition returning : string :=
  "id, name, url, created_at AS " ++ quoted "createdAt"
  ++ ", updated_at AS " ++ quoted "updatedAt".

Definition sql_duplicate : string := "SELECT id FROM databases WHERE url = $1".

Definition sql_insert : string :=
  "INSERT INTO databases ( name, url) VALUES ($1, $2) RETURNING " ++ returning.

Definition create (arg : record) : Run (option obj) :=
  let name := field arg "name" in
  let url := field arg "url" in
  run! duplicateCheck := Run.query sql_duplicate [url] in
  if (0 <? length duplicateCheck)%nat then
    Run.throw (BadRequestError "Duplicate database name or URL")
  else
    run! result := Run.query sql_insert [name; url] in
    Run.ret (head result).

Definition sql_getAll : string := "SELECT " ++ returning ++ " FROM databases".

Definition getAll : Run (list obj) :=
  run! databases := Run.query sql_getAll [] in
  if (length databases =? 0)%nat then Run.throw (NotFoundError "No databases found")
  else Run.ret databases.

Definition sql_update (setCols idVarIdx : string) : string :=
  "UPDATE databases SET " ++ setCols ++ " WHERE id = " ++ idVarIdx
  ++ " RETURNING " ++ returning.

Definition update (id : jsval) (data : record) : Run obj :=
  match Sql.sqlForPartialUpdate inherited_text data ∅ with
  | inl f => Run.throw f
  | inr (setCols, values) =>
      let idVarIdx := "$" ++ pretty (length values + 1)%nat in
      run! result := Run.query (sql_update setCols idVarIdx) (values ++ [id])%list in
      match head result with
      | None => Run.throw (NotFoundError ("No database with id: " ++ to_text id))
      | Some database => Run.ret database
      end
  end.

Definition sql_main : string :=
  "SELECT d.id FROM databases d JOIN user_databases ud ON d.id=ud.database_id "
  ++ "WHERE d.name = $1 AND ud.user_id = $2".

Definition createMainDatabase (userId : jsval) : Run (option obj) :=
  Run.try_catch
    (run! userDb := Run.query sql_main [JStr "main"; userId] in
     if (length userDb =? 0)%nat then
       run! mainDb := create [("name", JStr "main"); ("url", JStr "main")] in
       Run.emit (ConsoleLog "Main database created:" [ShownRow mainDb]) ;;!
       Run.ret mainDb
     else
       Run.emit (ConsoleLog "Main database already exists for user with ID:"
                   [ShownValue userId]) ;;!
       Run.ret (head userDb))
    (fun err =>
       Run.emit (ConsoleError "Error creating main database:" [ShownFailure err]) ;;!
       Run.throw err).

Definition sql_addUser : string :=
  "INSERT INTO user_databases ( user_id, database_id, role) VALUES ($1, $2, $3)".

(** The parameter [role = 'admin'] takes its default when the argument is
    [undefined].  The function has no [return]: its value is [undefined]. *)
Definition addUserToDatabase (userId databaseId role : jsval) : Run jsval :=
  let role := match role with JUndefined => JStr "admin" | _ => role end in
  Run.try_catch
    (Run.query sql_addUser [userId; databaseId; role] ;;!
     Run.emit (ConsoleLog ("User " ++ to_text userId ++ " added to database "
                           ++ to_text databaseId ++ " as " ++ to_text role) []) ;;!
     Run.ret JUndefined)
    (fun err =>
       Run.emit (ConsoleError "Error adding user to database:" [ShownFailure err]) ;;!
       Run.throw err).

End Model.

End Database.

(** [models/user.js] *)
Module User.

Section Model.

Context {E : Env}.

Definition sql_authenticate : string :=
  "SELECT id, email, password_hash AS " ++ quoted "password"
  ++ ", full_name, role FROM users WHERE email = $1".

Definition authenticate (email password : jsval) : Run obj :=
  run! result := Run.query sql_authenticate [email] in
  let invalid := Raised (UnauthorizedError (Some "Invalid username/password")) in
  match head result with
  | Some user =>
      run! isValid := Run.compare password (prop user "password") in
      if isValid then Run.ret (delete "password" user)
      else Run.throw invalid
  | None => Run.throw invalid
  end.

Definition sql_duplicate : string := "SELECT email FROM users WHERE email =$1".

Definition sql_insert : string :=
  "INSERT INTO users ( email, password_hash, full_name, role) VALUES ($1,$2,$3,$4) "
  ++ "RETURNING id, email, full_name AS " ++ quoted "fullName"
  ++ ", role, is_active AS " ++ quoted "isActive".

(** The parameter [role = 'user'] takes its default when [undefined]. *)
Definition register (arg : record) : Run (option obj) :=
  let email := field arg "email" in
  let password := field arg "password" in
  let fullName := field arg "fullName" in
  let role := match field arg "role" with JUndefined => JStr "user" | r => r end in
  run! duplicateCheck := Run.query sql_duplicate [email] in
  if (0 <? length duplicateCheck)%nat then
    Run.throw (BadRequestError ("Duplicate user: " ++ to_text email))
  else
    run! hashedPassword := Run.hash password in
    run! result := Run.query sql_insert [email; JStr hashedPassword; fullName; role] in
    Run.ret (head result).

Definition sql_getAll : string :=
  "SELECT id, email, full_name AS " ++ quoted "FullName"
  ++ ", role, is_active AS " ++ quoted "isActive"
  ++ ", created_at AS " ++ quoted "createdAt"
  ++ ", updated_at AS " ++ quoted "updatedAt" ++ " FROM users".

(** [if (!users)]: an array is truthy, the empty one too. *)
Definition getAll : Run (list obj) :=
  run! users := Run.query sql_getAll [] in
  let users_truthy := true in
  if negb users_truthy then Run.throw (NotFoundError "No users found")
  else Run.ret users.

Definition sql_update (setCols emailVarIdx : string) : string :=
  "UPDATE users SET " ++ setCols ++ " WHERE email = " ++ emailVarIdx
  ++ " RETURNING email, full_name AS " ++ quoted "fullName"
  ++ ", is_active AS " ++ quoted "isActive".

Definition update (email : jsval) (data : record) : Run obj :=
  run! data :=
    (if truthy (field data "password") then
       run! h := Run.hash (field data "password") in
       Run.ret (set_field data "password" (JStr h))
     else Run.ret data) in
  match Sql.sqlForPartialUpdate inherited_text data
          {[ "fullName" := "full_name"; "isActive" := "is_active" ]} with
  | inl f => Run.throw f
  | inr (setCols, values) =>
      let emailVarIdx := "$" ++ pretty (length values + 1)%nat in
      run! result := Run.query (sql_update setCols emailVarIdx) (values ++ [email])%list in
      match head result with
      | None => Run.throw (NotFoundError ("No user: " ++ to_text email))
      | Some user => Run.ret user
      end
  end.

Definition sql_superAdmin : string := "SELECT id FROM users WHERE role='super_admin'".

(** The [catch] prints the error and does not throw: the value is
    [undefined] then, as it is when a super admin exists. *)
Definition initializeSuperAdmin : Run (option obj) :=
  Run.try_catch
    (run! result := Run.query sql_superAdmin [] in
     if (length result =? 0)%nat then
       run! res := register [("email", SUPER_ADMIN_EMAIL);
                             ("password", SUPER_ADMIN_PASSWORD);
                             ("fullName", SUPER_ADMIN_FULL_NAME);
                             ("role", JStr "super_admin")] in
       Run.emit (ConsoleLog "Super admin initialized" []) ;;!
       Run.ret res
     else Run.ret None)
    (fun err =>
       Run.emit (ConsoleError "Error initializing super admin:" [ShownFailure err]) ;;!
       Run.ret None).

End Model.

End User.

(** [models/app.js], in the version that lists [url] and [category]. *)
Module App.

Section Model.

Context {E : Env}.

Definition sql_duplicate : string := "SELECT name FROM apps WHERE name = $1".

Definition sql_insert : string :=
  "INSERT INTO apps (name, icon, url, category, description) "
  ++ "VALUES ($1, $2, $3, $4, $5) "
  ++ "RETURNING id, name, icon, url, category, description".

(** The parameter is [{ name, icon, description }]; the array of values
    names [url] and [category] as well, which are declared nowhere in the
    module.  The array is evaluated before [db.query] is called, and reading
    [url] throws. *)
Definition create (arg : record) : Run (option obj) :=
  let name := field arg "name" in
  let icon := field arg "icon" in
  let description := field arg "description" in
  run! duplicateCheck := Run.query sql_duplicate [name] in
  match head duplicateCheck with
  | Some _ => Run.throw (BadRequestError ("Duplicate app: " ++ to_text name))
  | None =>
      run! values :=
        (run! url := Run.throw (A:=jsval) (ReferenceError "url") in
         run! category := Run.throw (A:=jsval) (ReferenceError "category") in
         Run.ret [name; icon; url; category; description]) in
      run! result := Run.query sql_insert values in
      Run.ret (head result)
  end.

End Model.

End App.

(** [server.js]: [startServer].  [app.listen] is recorded with its port; its
    callback runs later and is not part of the function. *)
Section Server.

Context {E : Env}.

Definition startServer : Run unit :=
  Run.try_catch
    (run! user := User.initializeSuperAdmin in
     Run.emit (ConsoleLog "Super Admin user:" [ShownRow user]) ;;!
     run! go_on :=
       (match user with
        | Some u =>
            run! mainDb := Database.createMainDatabase (prop u "id") in
            Run.emit (ConsoleLog "mainDb (after creation):" [ShownRow mainDb]) ;;!
            match mainDb with
            | None =>
                Run.emit (ConsoleError "Main database creation failed!" []) ;;!
                Run.ret false
            | Some m =>
                run! userDb :=
                  Database.addUserToDatabase (prop u "id") (prop m "id") JUndefined in
                Run.emit (ConsoleLog "userDb (after adding user):" [ShownValue userDb]) ;;!
                (if truthy userDb then
                   Run.emit (ConsoleLog "User added to main database successfully." [])
                 else Run.ret tt) ;;!
                Run.ret true
            end
        | None => Run.ret true
        end) in
     if go_on then Run.emit (Listen PORT) else Run.ret tt)
    (fun error =>
       Run.emit (ConsoleError "Failed to start server:" [ShownFailure error]) ;;!
       Run.emit (Exit 1)).

End Server.

(** *** A reference environment for the models

    The store answers from a script: each query takes the next answer, and
    an exhausted script answers with no rows.  [bcrypt] is a tagging of the
    data; a value prints as JavaScript prints it, integers in decimal. *)
Module EnvRef.

Definition exec (text : string) (values : list jsval)
    (script : list (string + list obj)) : (string + list obj) * list (string + list obj) :=
  match script with
  | [] => (inr [], [])
  | answer :: rest => (answer, rest)
  end.

Definition hash (data : jsval) (rounds : Z) : string + string :=
  match data with
  | JStr s => inr ("$2b$" ++ s)
  | _ => inl "data and salt arguments required"
  end.

Definition compare (data h : jsval) : string + bool :=
  match data, h with
  | JStr d, JStr h => inr (String.eqb ("$2b$" ++ d) h)
  | _, _ => inl "data and hash arguments required"
  end.

Definition text (v : jsval) : string :=
  match v with
  | JUndefined => "undefined"
  | JNull => "null"
  | JBool true => "true"
  | JBool false => "false"
  | JNum n => pretty n
  | JStr s => s
  end.

Definition inherited (name : string) : option string :=
  if String.eqb name "__proto__" then Some "[object Object]"
  else if String.eqb name "constructor" then Some "function Object() { [native code] }"
  else if String.eqb name "toString" then Some "function toString() { [native code] }"
  else if String.eqb name "valueOf" then Some "function valueOf() { [native code] }"
  else if String.eqb name "hasOwnProperty"
       then Some "function hasOwnProperty() { [native code] }"
  else None.

#[global] Instance env : Env := {|
  Store := list (string + list obj);
  db_exec := exec;
  bcrypt_hash := hash;
  bcrypt_compare := compare;
  BCRYPT_WORK_FACTOR := 12;
  SUPER_ADMIN_EMAIL := JStr "root@erp.io";
  SUPER_ADMIN_PASSWORD := JStr "change-me";
  SUPER_ADMIN_FULL_NAME := JStr "Root";
  PORT := JNum 3000;
  to_text := text;
  inherited_text := inherited
|}.

(** A world with the given script and nothing sent or printed yet. *)
Definition world (script : list (string + list obj)) : World := mkWorld script [] [].

(** A row of [databases] and a row of [users], as the queries return them. *)
Definition row_main : obj := {[ "id" := JNum 1; "name" := JStr "main"; "url" := JStr "main" ]}.
Definition row_root : obj := {[ "id" := JNum 7; "email" := JStr "root@erp.io" ]}.

End EnvRef.

(** ** [JwtRef] meets the interface *)

Lemma dec_enc_str (s rest : string) :
  JwtRef.dec_str (JwtRef.enc_str s ++ rest) = Some (s, rest).
Proof.
  induction s as [|c s IH]; simpl; [done|]. by rewrite IH.
Qed.

Lemma dec_enc_pos (p : positive) (rest : string) :
  JwtRef.dec_pos (JwtRef.enc_pos p ++ rest) = Some (p, rest).
Proof.
  induction p as [p IH|p IH|]; simpl; [by rewrite IH..|done].
Qed.

Lemma dec_enc_val (v : jsval) (rest : string) :
  JwtRef.dec_val (JwtRef.enc_val v ++ rest) = Some (v, rest).
Proof.
  destruct v as [| |[]|[|p|p]|s]; simpl; try done.
  - by rewrite dec_enc_pos.
  - by rewrite dec_enc_pos.
  - by rewrite dec_enc_str.
Qed.

Lemma string_app_assoc (a b c : string) : (a ++ b) ++ c = a ++ (b ++ c).
Proof. induction a as [|x a IH]; simpl; [done|]. by f_equal. Qed.

Lemma dec_enc_fields (l : list (string * jsval)) (rest : string) (fuel : nat) :
  (length l < fuel)%nat ->
  JwtRef.dec_fields fuel (JwtRef.enc_fields l ++ rest) = Some (l, rest).
Proof.
  revert fuel. induction l as [|[k v] l IH]; intros [|fuel] Hlt; simpl in *; try lia; [done|].
  rewrite !string_app_assoc, dec_enc_str, dec_enc_val, IH by lia. done.
Qed.

Lemma string_length_app (a b : string) :
  String.length (a ++ b) = (String.length a + String.length b)%nat.
Proof. induction a as [|x a IH]; simpl; [done|]. by f_equal. Qed.

Lemma enc_fields_length (l : list (string * jsval)) :
  (length l < String.length (JwtRef.enc_fields l))%nat.
Proof.
  induction l as [|[k v] l IH]; simpl; [lia|].
  rewrite !string_length_app. lia.
Qed.

Lemma string_app_nil_r (a : string) : a ++ "" = a.
Proof. induction a as [|x a IH]; simpl; [done|]. by f_equal. Qed.

Lemma dec_enc_fields_all (l : list (string * jsval)) :
  JwtRef.dec_fields (S (String.length (JwtRef.enc_fields l))) (JwtRef.enc_fields l)
  = Some (l, "").
Proof.
  pose proof (dec_enc_fields l "" (S (String.length (JwtRef.enc_fields l)))) as H.
  rewrite string_app_nil_r in H. apply H.
  pose proof (enc_fields_length l). lia.
Qed.

Lemma verify_token (key : string) (payload : obj) :
  JwtRef.verify (JwtRef.token key payload) key = inr payload.
Proof.
  unfold JwtRef.verify, JwtRef.token.
  change (Ascii.eqb "J" "J") with true. cbv iota.
  rewrite dec_enc_str, String.eqb_refl, dec_enc_fields_all.
  by rewrite list_to_map_to_list.
Qed.

(** A string that ends in a character [trim] keeps is left alone by [trim_end]. *)
Lemma trim_end_snoc (s : string) (c : ascii) :
  is_js_space c = false -> trim_end (s ++ String c "") = s ++ String c "".
Proof.
  intros Hc. induction s as [|x s IH]; simpl.
  - by rewrite Hc.
  - rewrite IH. by destruct s.
Qed.

Lemma enc_fields_snoc (l : list (string * jsval)) :
  exists body, JwtRef.enc_fields l = body ++ ";".
Proof.
  induction l as [|[k v] l [body IH]]; simpl.
  - by exists "".
  - exists (String "," (JwtRef.enc_str k ++ JwtRef.enc_val v ++ body)).
    simpl. by rewrite IH, !string_app_assoc.
Qed.

Lemma token_trimmed (key : string) (payload : obj) :
  js_trim (JwtRef.token key payload) = JwtRef.token key payload.
Proof.
  unfold js_trim, JwtRef.token.
  destruct (enc_fields_snoc (map_to_list payload)) as [body ->].
  change (trim_start (String "J" ?r)) with (String "J" r).
  rewrite <- string_app_assoc.
  apply (trim_end_snoc (String "J" _) ";"). reflexivity.
Qed.

Lemma json_roundtrip_lookup (p : obj) (k : string) :
  json_roundtrip p !! k =
  match p !! k with
  | Some JUndefined | None => None
  | Some v => Some v
  end.
Proof.
  unfold json_roundtrip. rewrite lookup_omap.
  by destruct (p !! k) as [[]|].
Qed.

Lemma unregistered_iat (p : obj) : unregistered p -> json_roundtrip p !! "iat" = None.
Proof.
  intros H. apply Forall_inv in H.
  by rewrite json_roundtrip_lookup, H.
Qed.

#[global] Program Instance jwt_ref : Jwt := {|
  jwt_sign := JwtRef.sign;
  jwt_verify := JwtRef.verify
|}.
Next Obligation.
  intros now p k Hk Hp. unfold JwtRef.sign.
  destruct (String.eqb_spec k ""); [done|]. eauto.
Qed.
Next Obligation.
  intros now p k t Hp. unfold JwtRef.sign.
  destruct (String.eqb_spec k ""); [done|].
  rewrite (unregistered_iat p Hp). intros [= <-]. apply verify_token.
Qed.
Next Obligation.
  intros now p k t. unfold JwtRef.sign.
  destruct (String.eqb_spec k ""); [done|].
  intros [= <-]. apply token_trimmed.
Qed.
Next Obligation. intros k. by eexists. Qed.

(** ** Properties *)

Lemma truthy_str (s : string) : truthy (JStr s) = true <-> s <> "".
Proof.
  simpl. destruct (String.eqb_spec s ""); simpl; split; intros; congruence.
Qed.

Lemma strict_eq_str (v : jsval) (s : string) : strict_eq v (JStr s) = true <-> v = JStr s.
Proof.
  destruct v; simpl; try (split; intros; congruence).
  rewrite String.eqb_eq. split; intros; congruence.
Qed.

Lemma replace_bearer_no_prefix (h : string) :
  starts_with "Bearer " h = false ->
  starts_with "bearer " h = false ->
  replace_bearer h = h.
Proof.
  destruct h as [|c r]; [done|]. unfold replace_bearer.
  change (starts_with "Bearer " (String c r))
    with (Ascii.eqb "B" c && starts_with "earer " r).
  change (starts_with "bearer " (String c r))
    with (Ascii.eqb "b" c && starts_with "earer " r).
  rewrite (Ascii.eqb_sym "B" c), (Ascii.eqb_sym "b" c).
  destruct (starts_with "earer " r); [|by rewrite !andb_false_r].
  rewrite !andb_true_r. by intros -> ->.
Qed.

Section IdentityResolution.

Context {J : Jwt}.
Variable SECRET_KEY : string.

(** What [authenticateJWT] does to a request that carries an
    [Authorization] value.  An empty value is not looked at; [jwt.verify]
    would have thrown on it. *)
Lemma authenticateJWT_header (c : Ctx) (h : string) :
  headers (req c) !! "authorization" = Some h ->
  authenticateJWT SECRET_KEY c =
  (inr Next,
   match jwt_verify (authToken h) SECRET_KEY with
   | inr payload => with_user payload c
   | inl _ => c
   end).
Proof.
  intros Hh. unfold authenticateJWT. eff_unfold. rewrite Hh.
  destruct (decide (h = "")) as [->|Hne].
  - destruct (jwt_verify_empty SECRET_KEY) as [e He].
    change (authToken "") with "". by rewrite He.
  - apply truthy_str in Hne. rewrite Hne.
    by destruct (jwt_verify _ _).
Qed.

Lemma authenticateJWT_no_header (c : Ctx) :
  headers (req c) !! "authorization" = None ->
  authenticateJWT SECRET_KEY c = (inr Next, c).
Proof.
  intros H. unfold authenticateJWT. eff_unfold. by rewrite H.
Qed.

(** C4: [authenticateJWT] never fails the request.  It always returns by
    calling [next()] with no error; without an [Authorization] header the
    context is left as it was; with a token that [jwt.verify] rejects the
    context is left as it was too, exactly as without the header; and the
    identity in the context changes only to the claims that a successful
    verification returned. *)
Theorem authenticateJWT_never_fails (c : Ctx) :
  (authenticateJWT SECRET_KEY c).1 = inr Next
  /\ (headers (req c) !! "authorization" = None ->
      authenticateJWT SECRET_KEY c = (inr Next, c))
  /\ (forall h e,
        headers (req c) !! "authorization" = Some h ->
        jwt_verify (authToken h) SECRET_KEY = inl e ->
        authenticateJWT SECRET_KEY c = (inr Next, c))
  /\ (forall h claims,
        headers (req c) !! "authorization" = Some h ->
        jwt_verify (authToken h) SECRET_KEY = inr claims ->
        authenticateJWT SECRET_KEY c = (inr Next, with_user claims c))
  /\ (forall u,
        user (locals (res (authenticateJWT SECRET_KEY c).2)) = Some u ->
        user (locals (res c)) = Some u \/
        exists h, headers (req c) !! "authorization" = Some h
                  /\ jwt_verify (authToken h) SECRET_KEY = inr u).
Proof.
  destruct (headers (req c) !! "authorization") as [h|] eqn:Hh.
  - rewrite (authenticateJWT_header c h Hh).
    split_and!; [done|done| | |].
    + by intros h' e [= <-] ->.
    + by intros h' claims [= <-] ->.
    + intros u. destruct (jwt_verify (authToken h) SECRET_KEY) as [e|p] eqn:Hv.
      * by left.
      * simpl. intros [= <-]. right. eauto.
  - rewrite authenticateJWT_no_header by auto.
    split_and!; [done..|by left].
Qed.

(** C8, as the code has it: the scheme word is matched in the two spellings
    [Bearer] and [bearer] only.  For a header made of one of them, a space
    and the rest, the prefix is removed, the rest is trimmed and the result
    is what [jwt.verify] is called with. *)
Theorem authenticateJWT_bearer_scheme (c : Ctx) (scheme rest : string) :
  scheme = "Bearer" \/ scheme = "bearer" ->
  headers (req c) !! "authorization" = Some (scheme ++ " " ++ rest) ->
  authToken (scheme ++ " " ++ rest) = js_trim rest
  /\ authenticateJWT SECRET_KEY c =
     (inr Next,
      match jwt_verify (js_trim rest) SECRET_KEY with
      | inr payload => with_user payload c
      | inl _ => c
      end).
Proof.
  intros Hs Hh.
  assert (authToken (scheme ++ " " ++ rest) = js_trim rest) as Htok
    by (destruct Hs as [-> | ->]; reflexivity).
  split; [done|].
  by rewrite (authenticateJWT_header c _ Hh), Htok.
Qed.

(** C10: a header value that starts with neither [Bearer ] nor [bearer ] is
    trimmed and handed whole to [jwt.verify]; when the verification succeeds
    its claims become the identity of the request. *)
Theorem authenticateJWT_bare_token (c : Ctx) (h : string) :
  headers (req c) !! "authorization" = Some h ->
  starts_with "Bearer " h = false ->
  starts_with "bearer " h = false ->
  authToken h = js_trim h
  /\ authenticateJWT SECRET_KEY c =
     (inr Next,
      match jwt_verify (js_trim h) SECRET_KEY with
      | inr payload => with_user payload c
      | inl _ => c
      end)
  /\ (forall claims,
        jwt_verify (js_trim h) SECRET_KEY = inr claims ->
        user (locals (res (authenticateJWT SECRET_KEY c).2)) = Some claims).
Proof.
  intros Hh HB Hb.
  assert (authToken h = js_trim h) as Htok
    by (unfold authToken; by rewrite replace_bearer_no_prefix).
  rewrite (authenticateJWT_header c h Hh), Htok.
  repeat split. intros claims ->. done.
Qed.

End IdentityResolution.

(** *** The predicates that read the context only *)

(** The four predicates without a lookup return or throw and leave the
    context alone. *)
Lemma ensureLoggedIn_run (c : Ctx) :
  ensureLoggedIn c =
  (if truthy (opt_prop (user (locals (res c))) "email")
   then inr Next else inl (UnauthorizedError None), c).
Proof. unfold ensureLoggedIn. eff_unfold. by destruct (truthy _). Qed.

Lemma ensureSuperAdmin_run (c : Ctx) :
  ensureSuperAdmin c =
  (if strict_eq (opt_prop (user (locals (res c))) "role") (JStr "super_admin")
   then inr Next else inl (UnauthorizedError None), c).
Proof. unfold ensureSuperAdmin. eff_unfold. by destruct (strict_eq _ _). Qed.

Lemma ensureCorrectUser_run (c : Ctx) :
  ensureCorrectUser c =
  (if truthy (opt_prop (user (locals (res c))) "email")
      && strict_eq (opt_prop (user (locals (res c))) "email")
           (str_prop (params (req c)) "email")
   then inr Next else inl (UnauthorizedError None), c).
Proof.
  unfold ensureCorrectUser, js_and. eff_unfold.
  destruct (truthy (opt_prop _ "email")) eqn:Ht; simpl.
  - by destruct (strict_eq _ _).
  - by rewrite Ht.
Qed.

Lemma ensureSuperAdminOrCorrectUser_run (c : Ctx) :
  ensureSuperAdminOrCorrectUser c =
  (if strict_eq (opt_prop (user (locals (res c))) "role") (JStr "super_admin")
      || truthy (opt_prop (user (locals (res c))) "email")
         && strict_eq (opt_prop (user (locals (res c))) "email")
              (str_prop (params (req c)) "email")
   then inr Next else inl (UnauthorizedError None), c).
Proof.
  unfold ensureSuperAdminOrCorrectUser, js_or, js_and. eff_unfold.
  destruct (strict_eq _ (JStr "super_admin")); simpl; [done|].
  destruct (truthy (opt_prop _ "email")) eqn:Ht; simpl.
  - by destruct (strict_eq _ _).
  - by rewrite Ht.
Qed.

(** The subject test of [ensureCorrectUser], in words: the email of the
    identity is a non-empty string and the route parameter is that string. *)
Lemma subject_test (email : jsval) (ps : gmap string string) :
  truthy email && strict_eq email (str_prop ps "email") = true <->
  exists s, email = JStr s /\ s <> "" /\ ps !! "email" = Some s.
Proof.
  unfold str_prop. rewrite andb_true_iff. split.
  - intros [Ht He]. destruct (ps !! "email") as [p|] eqn:Hp.
    + apply strict_eq_str in He. subst email. apply truthy_str in Ht. eauto.
    + by destruct email.
  - intros (s & -> & Hs & ->). split; [by apply truthy_str|by apply strict_eq_str].
Qed.

(** C6: with an identity in the context, [ensureCorrectUser] passes exactly
    when the identity's email is a non-empty string and the route parameter
    [email] is the very same string; in every other case it fails with
    Unauthorized.  Two strings that differ, be it in letter case only, fail;
    so does an identity whose email is absent or empty. *)
Theorem ensureCorrectUser_exact_match (c : Ctx) (u : obj) :
  user (locals (res c)) = Some u ->
  (gate ensureCorrectUser c = Next <->
   exists s, prop u "email" = JStr s /\ s <> "" /\ params (req c) !! "email" = Some s)
  /\ (gate ensureCorrectUser c <> Next ->
      gate ensureCorrectUser c = NextErr (UnauthorizedError None))
  /\ (forall s p,
        prop u "email" = JStr s -> params (req c) !! "email" = Some p -> s <> p ->
        gate ensureCorrectUser c = NextErr (UnauthorizedError None))
  /\ (prop u "email" = JUndefined \/ prop u "email" = JStr "" ->
      gate ensureCorrectUser c = NextErr (UnauthorizedError None)).
Proof.
  intros Hu. unfold gate. rewrite ensureCorrectUser_run, Hu. simpl.
  pose proof (subject_test (prop u "email") (params (req c))) as Ht.
  destruct (truthy (prop u "email") && strict_eq _ _) eqn:Hb; simpl.
  - split_and!; [by rewrite <- Ht|done| |].
    + intros s p Hs Hp Hne. apply proj1 in Ht.
      destruct (Ht eq_refl) as (s' & Hs' & _ & Hp'). congruence.
    + apply proj1 in Ht. destruct (Ht eq_refl) as (s' & Hs' & Hne & _).
      intros [H|H]; congruence.
  - split_and!; try done.
    split; [done|]. intros H. apply Ht in H. done.
Qed.

(** C5: [ensureSuperAdminOrCorrectUser] passes an identity whose role is
    ['super_admin'] whatever the subject; for any other context it decides
    as [ensureCorrectUser] does on that context; and when it does not pass
    it fails with Unauthorized. *)
Theorem ensureSuperAdminOrCorrectUser_composition (c : Ctx) :
  (opt_prop (user (locals (res c))) "role" = JStr "super_admin" ->
   gate ensureSuperAdminOrCorrectUser c = Next)
  /\ (opt_prop (user (locals (res c))) "role" <> JStr "super_admin" ->
      gate ensureSuperAdminOrCorrectUser c = gate ensureCorrectUser c)
  /\ (gate ensureSuperAdminOrCorrectUser c = Next \/
      gate ensureSuperAdminOrCorrectUser c = NextErr (UnauthorizedError None)).
Proof.
  unfold gate. rewrite ensureSuperAdminOrCorrectUser_run, ensureCorrectUser_run. simpl.
  destruct (strict_eq _ (JStr "super_admin")) eqn:Hr.
  - apply strict_eq_str in Hr. simpl. split_and!; [done|done|by left].
  - simpl. split_and!.
    + intros H. apply strict_eq_str in H. congruence.
    + done.
    + destruct (_ && _); [by left|by right].
Qed.

(** *** Membership *)

Section Membership.

Variable db : Db.

Lemma isUserLinkedToDatabase_run (userId databaseId : jsval) (c : Ctx) :
  isUserLinkedToDatabase db userId databaseId c =
  match db_query db membership_sql [userId; databaseId] with
  | inl cause =>
      (inl (DataAccessError cause),
       mkCtx (req c) (res c)
         (console c ++ [("Error checking if user is linked to database:",
                         LoggedError (DataAccessError cause))]))
  | inr rows => (inr (0 <? length rows)%nat, c)
  end.
Proof.
  unfold isUserLinkedToDatabase. eff_unfold. by destruct (db_query _ _ _).
Qed.

Lemma ensureDatabaseUser_run (c : Ctx) :
  ensureDatabaseUser db c =
  let userId := opt_prop (user (locals (res c))) "id" in
  let databaseId := str_prop (headers (req c)) "database-id" in
  if negb (truthy userId) then
    (inr (NextErr (UnauthorizedError (Some "User authentication required."))), entry_log c)
  else if negb (truthy databaseId) then
    (inr (NextErr (UnauthorizedError (Some "Database connection required."))), entry_log c)
  else
    match db_query db membership_sql [userId; databaseId] with
    | inl cause =>
        (inr (NextErr (DataAccessError cause)),
         mkCtx (req c) (res c)
           (console (entry_log c)
              ++ [("Error checking if user is linked to database:",
                   LoggedError (DataAccessError cause))]))
    | inr rows =>
        (inr (if (0 <? length rows)%nat then Next
              else NextErr (UnauthorizedError
                              (Some "User not authorized to access this database."))),
         entry_log c)
    end.
Proof.
  unfold ensureDatabaseUser. eff_unfold. simpl.
  destruct (truthy (opt_prop _ "id")); simpl; [|done].
  destruct (truthy (str_prop _ "database-id")); simpl; [|done].
  pose proof (isUserLinkedToDatabase_run
                (opt_prop (user (locals (res c))) "id")
                (str_prop (headers (req c)) "database-id")
                (entry_log c)) as Hrun.
  unfold entry_log in *. simpl in *. rewrite Hrun.
  destruct (db_query _ _ _) as [cause|rows]; [done|].
  by destruct (0 <? length rows)%nat.
Qed.

(** C1, as the code has it.  The resource identifier is the value of the
    [database-id] header.  [ensureDatabaseUser] passes, and the handler of
    the route then runs, exactly when the identity's [id] is truthy, the
    header value is non-empty and the lookup returns at least one row.  When
    the id or the header is missing, or the lookup returns no row, it fails
    with Unauthorized.  When the lookup itself fails, the predicate hands
    that error on: it neither passes nor fails with Unauthorized. *)
Theorem ensureDatabaseUser_decision (c : Ctx) :
  let userId := opt_prop (user (locals (res c))) "id" in
  let databaseId := str_prop (headers (req c)) "database-id" in
  (gate (ensureDatabaseUser db) c = Next <->
   truthy userId = true /\ truthy databaseId = true /\
   exists rows, db_query db membership_sql [userId; databaseId] = inr rows /\ rows <> [])
  /\ (gate (ensureDatabaseUser db) c = Next ->
      forall R (handler : Eff R),
        route (ensureDatabaseUser db) handler c = handler (entry_log c))
  /\ (truthy userId = false \/ truthy databaseId = false \/
      db_query db membership_sql [userId; databaseId] = inr [] ->
      exists m, gate (ensureDatabaseUser db) c = NextErr (UnauthorizedError (Some m)))
  /\ (forall cause,
        truthy userId = true -> truthy databaseId = true ->
        db_query db membership_sql [userId; databaseId] = inl cause ->
        gate (ensureDatabaseUser db) c = NextErr (DataAccessError cause)).
Proof.
  intros userId databaseId. unfold gate, route. eff_unfold.
  rewrite ensureDatabaseUser_run. fold userId databaseId. cbv zeta.
  destruct (truthy userId); simpl.
  2:{ split_and!; [split; [done|intros (? & _); done]|done|eauto|done]. }
  destruct (truthy databaseId); simpl.
  2:{ split_and!; [split; [done|intros (_ & ? & _); done]|done|eauto|done]. }
  destruct (db_query db membership_sql [userId; databaseId]) as [cause|rows]; simpl.
  { split_and!; [split; [done|intros (_ & _ & ? & ? & _); done]|done| |by intros ? _ _ [= ->]].
    intros [?|[?|?]]; done. }
  destruct rows as [|r rows]; simpl.
  - split_and!; [split; [done|intros (_ & _ & ? & [= <-] & ?); done]|done|eauto|done].
  - split_and!; [split; [eauto 10|done]|done| |done].
    intros [?|[?|?]]; done.
Qed.

(** C7: when [db.query] rejects, [isUserLinkedToDatabase] throws that error
    and returns no boolean; [ensureDatabaseUser], once it has an id and a
    resource identifier and so makes the lookup, hands the same error to
    [next]: the request fails with an error that is not Unauthorized and
    that the error handler answers with status 500, not 401.  A lookup that
    finds no row returns [false] and throws nothing. *)
Theorem lookup_failure_propagates (userId databaseId : jsval) (c : Ctx) :
  (forall cause,
     db_query db membership_sql [userId; databaseId] = inl cause ->
     (isUserLinkedToDatabase db userId databaseId c).1 = inl (DataAccessError cause)
     /\ (opt_prop (user (locals (res c))) "id" = userId ->
         str_prop (headers (req c)) "database-id" = databaseId ->
         truthy userId = true -> truthy databaseId = true ->
         gate (ensureDatabaseUser db) c = NextErr (DataAccessError cause)
         /\ is_unauthorized (DataAccessError cause) = false
         /\ response_status (DataAccessError cause) = 500%Z
         /\ forall R (handler : Eff R),
              (route (ensureDatabaseUser db) handler c).1 = inl (DataAccessError cause)))
  /\ (db_query db membership_sql [userId; databaseId] = inr [] ->
      isUserLinkedToDatabase db userId databaseId c = (inr false, c)).
Proof.
  split.
  - intros cause Hq. rewrite isUserLinkedToDatabase_run, Hq. split; [done|].
    intros <- <- Hu Hd. unfold gate, route. eff_unfold.
    rewrite ensureDatabaseUser_run. cbv zeta. rewrite Hu, Hd, Hq. done.
  - intros Hq. by rewrite isUserLinkedToDatabase_run, Hq.
Qed.

End Membership.

(** *** The predicates as gates *)

(** A route whose middleware does not pass answers with the error and
    nothing of the handler: neither its result nor its effects. *)
Lemma route_rejected {R} (mw : middleware) (handler : Eff R) (c : Ctx) (e : error) :
  gate mw c = NextErr e ->
  route mw handler c = (inl e, (mw c).2).
Proof.
  unfold gate, route. eff_unfold.
  destruct (mw c) as [[e'|[|e']] c']; simpl; congruence.
Qed.

Lemma route_passed {R} (mw : middleware) (handler : Eff R) (c : Ctx) :
  gate mw c = Next ->
  route mw handler c = handler (mw c).2.
Proof.
  unfold gate, route. eff_unfold.
  destruct (mw c) as [[e'|[|e']] c']; simpl; congruence.
Qed.

(** C9, as the code has it: every predicate leaves the request and the
    response of the context (identity, route parameters, headers) as they
    were, and only [ensureDatabaseUser] writes to the console.  A predicate
    either passes, and the handler runs on that context, or it fails and the
    handler does not run.  The failure is Unauthorized, except that
    [ensureDatabaseUser] fails with the error of the lookup when the lookup
    fails. *)
Theorem predicates_are_gates (db : Db) (p : predicate) (c : Ctx) :
  let mw := predicate_mw db p in
  req (mw c).2 = req c
  /\ res (mw c).2 = res c
  /\ (p <> ResourceMember -> (mw c).2 = c)
  /\ ((gate mw c = Next
       /\ forall R (handler : Eff R), route mw handler c = handler (mw c).2)
      \/ exists e,
           gate mw c = NextErr e
           /\ (forall R (handler : Eff R), route mw handler c = (inl e, (mw c).2))
           /\ (is_unauthorized e = true
               \/ p = ResourceMember
                  /\ exists cause,
                       e = DataAccessError cause
                       /\ db_query db membership_sql
                            [opt_prop (user (locals (res c))) "id";
                             str_prop (headers (req c)) "database-id"] = inl cause)).
Proof.
  intros mw.
  assert (gate mw c = Next \/
          exists e, gate mw c = NextErr e /\
            (is_unauthorized e = true
             \/ p = ResourceMember
                /\ exists cause,
                     e = DataAccessError cause
                     /\ db_query db membership_sql
                          [opt_prop (user (locals (res c))) "id";
                           str_prop (headers (req c)) "database-id"] = inl cause)) as Hgate.
  { subst mw. unfold gate. destruct p; simpl.
    - rewrite ensureLoggedIn_run. destruct (truthy _); simpl; eauto.
    - rewrite ensureSuperAdmin_run. destruct (strict_eq _ _); simpl; eauto.
    - rewrite ensureCorrectUser_run. destruct (_ && _); simpl; eauto.
    - rewrite ensureSuperAdminOrCorrectUser_run. destruct (_ || _); simpl; eauto.
    - rewrite ensureDatabaseUser_run. cbv zeta.
      destruct (truthy (opt_prop _ _)); simpl; [|eauto].
      destruct (truthy (str_prop _ _)); simpl; [|eauto].
      destruct (db_query _ _ _) as [cause|rows]; simpl; [eauto 10|].
      destruct (0 <? length rows)%nat; eauto. }
  assert (req (mw c).2 = req c /\ res (mw c).2 = res c
          /\ (p <> ResourceMember -> (mw c).2 = c)) as (Hreq & Hres & Hc).
  { subst mw. destruct p; simpl.
    - by rewrite ensureLoggedIn_run.
    - by rewrite ensureSuperAdmin_run.
    - by rewrite ensureCorrectUser_run.
    - by rewrite ensureSuperAdminOrCorrectUser_run.
    - rewrite ensureDatabaseUser_run. cbv zeta.
      destruct (truthy (opt_prop _ _)); simpl; [|done].
      destruct (truthy (str_prop _ _)); simpl; [|done].
      by destruct (db_query _ _ _). }
  split_and!; [done..|].
  destruct Hgate as [Hn|(e & He & Hkind)].
  - left. split; [done|]. intros R handler. by apply route_passed.
  - right. exists e. split_and!; [done| |done].
    intros R handler. by apply route_rejected.
Qed.

(** *** Tokens *)

Section Tokens.

Context {J : Jwt}.
Variable SECRET_KEY : string.

Lemma payload_unregistered (u : obj) : unregistered (payload_of u).
Proof.
  unfold unregistered, registered_claims, payload_of.
  repeat constructor; by rewrite lookup_insert_ne, lookup_singleton_ne.
Qed.

(** With a key that is not empty, [createToken] returns a token. *)
Lemma createToken_total (now : Z) (u : obj) :
  SECRET_KEY <> "" -> exists t, createToken SECRET_KEY now u = inr t.
Proof.
  intros Hk. apply (jwt_sign_total now (payload_of u)); [done|].
  apply payload_unregistered.
Qed.

Lemma createToken_verify (now : Z) (u : obj) (t : string) :
  createToken SECRET_KEY now u = inr t ->
  jwt_verify t SECRET_KEY = inr (<["iat" := JNum now]> (json_roundtrip (payload_of u))).
Proof.
  intros Hs. apply (jwt_verify_sign now (payload_of u)); [|done].
  apply payload_unregistered.
Qed.

Lemma token_claims_no_id (now : Z) (u : obj) :
  prop (<["iat" := JNum now]> (json_roundtrip (payload_of u))) "id" = JUndefined.
Proof.
  unfold prop, payload_of.
  rewrite lookup_insert_ne, json_roundtrip_lookup by done.
  by rewrite lookup_insert_ne, lookup_singleton_ne.
Qed.

(** Claims with the properties [email] and [role] at most, each a JSON
    value, are what [createToken] puts in the payload. *)
Lemma payload_of_claims (claims : obj) :
  (forall k, k <> "email" -> k <> "role" -> claims !! k = None) ->
  (forall k, claims !! k <> Some JUndefined) ->
  json_roundtrip (payload_of claims) = claims.
Proof.
  intros Hdom Hdef. apply map_eq. intros k.
  rewrite json_roundtrip_lookup. unfold payload_of, prop.
  destruct (decide (k = "email")) as [->|Hne].
  { rewrite lookup_insert_eq. pose proof (Hdef "email").
    by destruct (claims !! "email") as [[]|]. }
  rewrite lookup_insert_ne by done.
  destruct (decide (k = "role")) as [->|Hnr].
  { rewrite lookup_singleton_eq. pose proof (Hdef "role").
    by destruct (claims !! "role") as [[]|]. }
  rewrite lookup_singleton_ne by done. by rewrite Hdom.
Qed.

(** C2: the claims that [authenticateJWT] attaches from a token of
    [createToken] have no [id], so [ensureDatabaseUser] fails with
    Unauthorized ("User authentication required.") whatever the store and
    the [database-id] header hold.  The header may carry the token after
    [Bearer ] or in any other form from which the middleware extracts it. *)
Theorem issued_token_never_member (now : Z) (u : obj) (t : string) :
  createToken SECRET_KEY now u = inr t ->
  authToken ("Bearer " ++ t) = t
  /\ forall (db : Db) (c : Ctx) (h : string),
       headers (req c) !! "authorization" = Some h ->
       authToken h = t ->
       let c' := (authenticateJWT SECRET_KEY c).2 in
       (exists claims,
          user (locals (res c')) = Some claims
          /\ claims = <["iat" := JNum now]> (json_roundtrip (payload_of u))
          /\ prop claims "id" = JUndefined)
       /\ gate (ensureDatabaseUser db) c' =
          NextErr (UnauthorizedError (Some "User authentication required.")).
Proof.
  intros Hs. split.
  { unfold authToken. change (replace_bearer ("Bearer " ++ t)) with t.
    by apply (jwt_sign_trimmed now (payload_of u) SECRET_KEY). }
  intros db c h Hh Htok c'. subst c'.
  rewrite (authenticateJWT_header SECRET_KEY c h Hh), Htok.
  rewrite (createToken_verify now u t Hs). simpl. split.
  - eexists. split_and!; [done..|]. apply token_claims_no_id.
  - unfold gate. rewrite ensureDatabaseUser_run. cbv zeta. simpl.
    change (opt_prop (Some ?o) "id") with (prop o "id").
    by rewrite token_claims_no_id.
Qed.

(** C3, as the code has it: for claims that hold [email] and [role] at most,
    verifying the issued token returns those claims extended with [iat], the
    issue time that [jwt.sign] adds to a payload; [email] and [role] come
    back unchanged, and the result is not the input. *)
Theorem verify_issue_adds_iat (now : Z) (claims : obj) (t : string) :
  (forall k, k <> "email" -> k <> "role" -> claims !! k = None) ->
  (forall k, claims !! k <> Some JUndefined) ->
  createToken SECRET_KEY now claims = inr t ->
  jwt_verify t SECRET_KEY = inr (<["iat" := JNum now]> claims)
  /\ (forall result,
        jwt_verify t SECRET_KEY = inr result ->
        prop result "email" = prop claims "email"
        /\ prop result "role" = prop claims "role"
        /\ prop result "iat" = JNum now
        /\ result <> claims).
Proof.
  intros Hdom Hdef Hs.
  pose proof (createToken_verify now claims t Hs) as Hv.
  rewrite (payload_of_claims claims Hdom Hdef) in Hv.
  split; [done|]. intros result. rewrite Hv. intros [= <-].
  unfold prop. rewrite !lookup_insert_ne by done. rewrite lookup_insert_eq.
  split_and!; [done..|].
  intros Heq. apply (f_equal (fun m : obj => m !! "iat")) in Heq.
  rewrite lookup_insert_eq, Hdom in Heq; done.
Qed.

End Tokens.

(** ** The properties on the sample requests *)

Import Sample.

Example trim_ex : js_trim "  ab c	 " = "ab c".
Proof. reflexivity. Qed.
Example replace_ex : replace_bearer "bearer x" = "x" /\ replace_bearer "BEARER x" = "BEARER x".
Proof. split; reflexivity. Qed.
Example obj_ex : prop ({[ "email" := JStr "a" ]} : obj) "email" = JStr "a".
Proof. reflexivity. Qed.
Example obj_ex2 : json_roundtrip ({[ "email" := JStr "a"; "role" := JUndefined ]} : obj) = {[ "email" := JStr "a" ]}.
Proof. vm_compute. reflexivity. Qed.

(** C1 on [ada] with her [id] in the identity: she is a member of database
    9, and the predicate passes. *)
Lemma ensureDatabaseUser_decision_witness :
  gate (ensureDatabaseUser (PgRef.db store_up))
    (ctx_of [("database-id", "9")] [] (Some ada)) = Next.
Proof.
  apply (ensureDatabaseUser_decision (PgRef.db store_up)
           (ctx_of [("database-id", "9")] [] (Some ada))).
  split_and!; [reflexivity..|].
  exists [{[ "user_id" := JNum 5 ]}]. split; [vm_compute; reflexivity|discriminate].
Defined.

(** C1 as stated fails while the store is down: [ada] has an id and names a
    resource, no membership is confirmed, and the predicate does not fail
    with Unauthorized. *)
Lemma ensureDatabaseUser_store_down :
  truthy (prop ada "id") = true
  /\ truthy (str_prop {[ "database-id" := "9" ]} "database-id") = true
  /\ db_query (PgRef.db store_down) membership_sql [JNum 5; JStr "9"]
     = inl "connect ECONNREFUSED"
  /\ gate (ensureDatabaseUser (PgRef.db store_down))
       (ctx_of [("database-id", "9")] [] (Some ada))
     = NextErr (DataAccessError "connect ECONNREFUSED")
  /\ is_unauthorized (DataAccessError "connect ECONNREFUSED") = false.
Proof. vm_compute. done. Qed.

(** C2 on a token issued to [ada]: sent back after [Bearer ], it yields an
    identity that [ensureDatabaseUser] turns away, member though she is. *)
Lemma issued_token_never_member_witness :
  match createToken key clock ada with
  | inr t =>
      gate (ensureDatabaseUser (PgRef.db store_up))
        (authenticateJWT key
           (ctx_of [("authorization", "Bearer " ++ t); ("database-id", "9")] [] None)).2
      = NextErr (UnauthorizedError (Some "User authentication required."))
  | inl _ => False
  end.
Proof.
  destruct (createToken key clock ada) as [e|t] eqn:Hs.
  { vm_compute in Hs. discriminate Hs. }
  destruct (issued_token_never_member key clock ada t Hs) as [Htok Hall].
  apply (Hall (PgRef.db store_up)
           (ctx_of [("authorization", "Bearer " ++ t); ("database-id", "9")] [] None)
           ("Bearer " ++ t)); [|exact Htok].
  unfold ctx_of. simpl. apply lookup_insert_eq.
Defined.

(** C3 as stated fails on [ada_claims]: the claims that come back hold
    [iat] besides. *)
Lemma verify_issue_not_identity :
  match createToken key clock ada_claims with
  | inr t =>
      jwt_verify t key = inr (<["iat" := JNum clock]> ada_claims)
      /\ jwt_verify t key <> inr ada_claims
  | inl _ => False
  end.
Proof. vm_compute. split; [reflexivity|discriminate]. Qed.

Lemma ada_claims_fields (k : string) :
  k <> "email" -> k <> "role" -> ada_claims !! k = None.
Proof.
  intros. unfold ada_claims. by rewrite lookup_insert_ne, lookup_singleton_ne.
Defined.

Lemma ada_claims_json (k : string) : ada_claims !! k <> Some JUndefined.
Proof.
  unfold ada_claims.
  destruct (decide (k = "email")) as [->|]; [by rewrite lookup_insert_eq|].
  rewrite lookup_insert_ne by done.
  destruct (decide (k = "role")) as [->|]; [by rewrite lookup_singleton_eq|].
  by rewrite lookup_singleton_ne.
Defined.

Lemma verify_issue_adds_iat_witness :
  match createToken key clock ada_claims with
  | inr t => jwt_verify t key = inr (<["iat" := JNum clock]> ada_claims)
  | inl _ => False
  end.
Proof.
  destruct (createToken key clock ada_claims) as [e|t] eqn:Hs.
  { vm_compute in Hs. discriminate Hs. }
  apply (verify_issue_adds_iat key clock ada_claims t
           ada_claims_fields ada_claims_json Hs).
Defined.

(** C4 on a header with a token that does not verify. *)
Lemma authenticateJWT_never_fails_witness :
  authenticateJWT key (ctx_of [("authorization", "Bearer not.a.token")] [] None)
  = (inr Next, ctx_of [("authorization", "Bearer not.a.token")] [] None).
Proof.
  destruct (authenticateJWT_never_fails key
              (ctx_of [("authorization", "Bearer not.a.token")] [] None))
    as (_ & _ & Hbad & _).
  apply (Hbad "Bearer not.a.token" (JwtError "jwt malformed")); reflexivity.
Defined.

(** C5 on a super admin who asks for somebody else's record. *)
Lemma ensureSuperAdminOrCorrectUser_composition_witness :
  gate ensureSuperAdminOrCorrectUser
    (ctx_of [] [("email", "ada@erp.io")]
       (Some {[ "email" := JStr "root@erp.io"; "role" := JStr "super_admin" ]}))
  = Next.
Proof.
  apply (ensureSuperAdminOrCorrectUser_composition
           (ctx_of [] [("email", "ada@erp.io")]
              (Some {[ "email" := JStr "root@erp.io"; "role" := JStr "super_admin" ]}))).
  reflexivity.
Defined.

(** C6 on [ada]: her own address passes, the same address in capitals
    does not. *)
Lemma ensureCorrectUser_exact_match_witness :
  gate ensureCorrectUser (ctx_of [] [("email", "ADA@erp.io")] (Some ada))
  = NextErr (UnauthorizedError None).
Proof.
  destruct (ensureCorrectUser_exact_match
              (ctx_of [] [("email", "ADA@erp.io")] (Some ada)) ada eq_refl)
    as (_ & _ & Hdiff & _).
  apply (Hdiff "ada@erp.io" "ADA@erp.io"); [reflexivity|reflexivity|discriminate].
Defined.

(** C7 while the store is down. *)
Lemma lookup_failure_propagates_witness :
  gate (ensureDatabaseUser (PgRef.db store_down))
    (ctx_of [("database-id", "9")] [] (Some ada))
  = NextErr (DataAccessError "connect ECONNREFUSED").
Proof.
  destruct (lookup_failure_propagates (PgRef.db store_down) (JNum 5) (JStr "9")
              (ctx_of [("database-id", "9")] [] (Some ada)))
    as [Hfail _].
  destruct (Hfail "connect ECONNREFUSED" eq_refl) as [_ Hmw].
  apply Hmw; reflexivity.
Defined.

(** C8 on the lower-case scheme word. *)
Lemma authenticateJWT_bearer_scheme_witness :
  authToken "bearer  abc.def.ghi " = "abc.def.ghi".
Proof.
  destruct (authenticateJWT_bearer_scheme key
              (ctx_of [("authorization", "bearer  abc.def.ghi ")] [] None)
              "bearer" " abc.def.ghi " (or_intror eq_refl) eq_refl)
    as [Htok _].
  exact Htok.
Defined.

(** C8 as stated fails on the scheme word in capitals: nothing is removed,
    and [jwt.verify] is given the whole header value. *)
Lemma bearer_uppercase_not_stripped :
  lower "BEARER" = "bearer"
  /\ authToken ("BEARER" ++ " " ++ "abc.def.ghi") = "BEARER abc.def.ghi"
  /\ authToken ("BEARER" ++ " " ++ "abc.def.ghi") <> js_trim "abc.def.ghi".
Proof. split_and!; [reflexivity|reflexivity|discriminate]. Qed.

(** C9 as stated fails for [ensureDatabaseUser] while the store is down: the
    request does not proceed, and the failure is not Unauthorized. *)
Lemma resource_member_store_down :
  gate (predicate_mw (PgRef.db store_down) ResourceMember)
    (ctx_of [("database-id", "9")] [] (Some ada))
  = NextErr (DataAccessError "connect ECONNREFUSED")
  /\ NextErr (DataAccessError "connect ECONNREFUSED") <> Next
  /\ is_unauthorized (DataAccessError "connect ECONNREFUSED") = false.
Proof. split_and!; [vm_compute; reflexivity|discriminate|reflexivity]. Qed.

(** C9 on [ada] asking for her own record. *)
Lemma predicates_are_gates_witness :
  (predicate_mw (PgRef.db store_up) SubjectMatch
     (ctx_of [] [("email", "ada@erp.io")] (Some ada))).2
  = ctx_of [] [("email", "ada@erp.io")] (Some ada).
Proof.
  apply (predicates_are_gates (PgRef.db store_up) SubjectMatch
           (ctx_of [] [("email", "ada@erp.io")] (Some ada))).
  discriminate.
Defined.

(** C10 on a token sent with no scheme word. *)
Lemma authenticateJWT_bare_token_witness :
  match createToken key clock ada with
  | inr t =>
      user (locals (res (authenticateJWT key
                           (ctx_of [("authorization", t)] [] None)).2))
      = Some (<["iat" := JNum clock]> ada_claims)
  | inl _ => False
  end.
Proof.
  destruct (createToken key clock ada) as [e|t] eqn:Hs.
  { vm_compute in Hs. discriminate Hs. }
  assert (jwt_verify (js_trim t) key = inr (<["iat" := JNum clock]> ada_claims)) as Hv.
  { vm_compute in Hs. injection Hs as <-. vm_compute. reflexivity. }
  destruct (authenticateJWT_bare_token key (ctx_of [("authorization", t)] [] None) t)
    as (_ & _ & Hid).
  - unfold ctx_of. simpl. apply lookup_insert_eq.
  - vm_compute in Hs. injection Hs as <-. reflexivity.
  - vm_compute in Hs. injection Hs as <-. reflexivity.
  - apply Hid. exact Hv.
Defined.

(** ** More of the program: the predicates on the routes *)

Example path_params_ex :
  Routes.path_params "/user/:userId" = ["userId"]
  /\ Routes.path_params "/:email" = ["email"]
  /\ Routes.path_params "/" = [].
Proof. split_and!; reflexivity. Qed.

Section Pipeline.

Context {J : Jwt}.
Variable SECRET_KEY : string.

(** X1: a request that carries no identity is turned away by each of the
    five predicates with Unauthorized, which the error handler answers with
    status 401, whatever the headers, the route parameters and the store
    hold.  That is the state of a request that came without an
    [Authorization] header, or with a token that [jwt.verify] rejects. *)
Theorem anonymous_is_rejected (db : Db) (p : predicate) (c : Ctx) :
  user (locals (res c)) = None ->
  (exists m, gate (predicate_mw db p) c = NextErr (UnauthorizedError m)
             /\ response_status (UnauthorizedError m) = 401%Z)
  /\ (headers (req c) !! "authorization" = None
      \/ (exists h e, headers (req c) !! "authorization" = Some h
                      /\ jwt_verify (authToken h) SECRET_KEY = inl e) ->
      exists m,
        gate (predicate_mw db p) (authenticateJWT SECRET_KEY c).2
        = NextErr (UnauthorizedError m)).
Proof.
  intros Hu.
  assert (exists m, gate (predicate_mw db p) c = NextErr (UnauthorizedError m)) as [m Hm].
  { unfold gate. destruct p; simpl.
    - rewrite ensureLoggedIn_run, Hu. simpl. eauto.
    - rewrite ensureSuperAdmin_run, Hu. simpl. eauto.
    - rewrite ensureCorrectUser_run, Hu. simpl. eauto.
    - rewrite ensureSuperAdminOrCorrectUser_run, Hu. simpl. eauto.
    - rewrite ensureDatabaseUser_run, Hu. simpl. eauto. }
  split; [by exists m|].
  intros [Hh|(h & e & Hh & Hv)].
  - rewrite authenticateJWT_no_header by done. eauto.
  - rewrite (authenticateJWT_header SECRET_KEY c h Hh), Hv. eauto.
Qed.

(** [JSON] drops the properties that are [undefined], and reading a
    property that is not there gives [undefined]. *)
Lemma prop_json_roundtrip (o : obj) (k : string) : prop (json_roundtrip o) k = prop o k.
Proof.
  unfold prop. rewrite json_roundtrip_lookup. by destruct (o !! k) as [[]|].
Qed.

Lemma issued_claims_prop (now : Z) (u : obj) (k : string) :
  k = "email" \/ k = "role" ->
  prop (<["iat" := JNum now]> (json_roundtrip (payload_of u))) k = prop u k.
Proof.
  intros Hk.
  assert (k <> "iat") as Hi by (by destruct Hk as [-> | ->]).
  transitivity (prop (json_roundtrip (payload_of u)) k).
  { unfold prop. by rewrite lookup_insert_ne. }
  rewrite prop_json_roundtrip. unfold prop, payload_of.
  destruct Hk as [-> | ->].
  - by rewrite lookup_insert_eq.
  - by rewrite lookup_insert_ne, lookup_singleton_eq.
Qed.

(** X2: what the predicates decide for the bearer of a token that
    [createToken] issued to the user [u].  [ensureLoggedIn] passes exactly
    when [u.email] is truthy, [ensureSuperAdmin] exactly when [u.role] is
    ['super_admin'], [ensureCorrectUser] exactly when [u.email] is a
    non-empty string and the route parameter [email] is that string, and
    [ensureSuperAdminOrCorrectUser] when one of the last two holds. *)
Theorem issued_token_decisions (now : Z) (u : obj) (t : string) (c : Ctx) :
  createToken SECRET_KEY now u = inr t ->
  headers (req c) !! "authorization" = Some ("Bearer " ++ t) ->
  let c' := (authenticateJWT SECRET_KEY c).2 in
  (gate ensureLoggedIn c' = Next <-> truthy (prop u "email") = true)
  /\ (gate ensureSuperAdmin c' = Next <-> prop u "role" = JStr "super_admin")
  /\ (gate ensureCorrectUser c' = Next <->
      exists s, prop u "email" = JStr s /\ s <> ""
                /\ params (req c) !! "email" = Some s)
  /\ (gate ensureSuperAdminOrCorrectUser c' = Next <->
      prop u "role" = JStr "super_admin"
      \/ exists s, prop u "email" = JStr s /\ s <> ""
                   /\ params (req c) !! "email" = Some s).
Proof.
  intros Hs Hh c'. subst c'.
  assert (authToken ("Bearer " ++ t) = t) as Htok.
  { unfold authToken. change (replace_bearer ("Bearer " ++ t)) with t.
    by apply (jwt_sign_trimmed now (payload_of u) SECRET_KEY). }
  rewrite (authenticateJWT_header SECRET_KEY c _ Hh), Htok.
  rewrite (createToken_verify SECRET_KEY now u t Hs).
  unfold gate.
  rewrite ensureLoggedIn_run, ensureSuperAdmin_run, ensureCorrectUser_run,
    ensureSuperAdminOrCorrectUser_run.
  simpl. change (opt_prop (Some ?o) ?k) with (prop o k).
  rewrite !issued_claims_prop by auto.
  pose proof (subject_test (prop u "email") (params (req c))) as Ht.
  pose proof (strict_eq_str (prop u "role") "super_admin") as Hr.
  split_and!.
  - by destruct (truthy (prop u "email")).
  - destruct (strict_eq (prop u "role") (JStr "super_admin")); simpl.
    + split; [intros _; by apply Hr|done].
    + split; [done|]. intros H. apply Hr in H. done.
  - rewrite <- Ht. by destruct (_ && _).
  - rewrite <- Ht, <- Hr.
    destruct (strict_eq (prop u "role") (JStr "super_admin")); simpl.
    + split; [by left|done].
    + destruct (_ && _); simpl; split; try done; [by right|by intros [?|?]].
Qed.

(** X3: [authenticateJWT] writes [res.locals.user] and nothing else: the
    request and the console are as before.  Running it a second time on the
    context it returned changes nothing more. *)
Theorem authenticateJWT_idempotent (c : Ctx) :
  let r := authenticateJWT SECRET_KEY c in
  req r.2 = req c
  /\ console r.2 = console c
  /\ authenticateJWT SECRET_KEY r.2 = r.
Proof.
  intros r. subst r.
  destruct (headers (req c) !! "authorization") as [h|] eqn:Hh.
  - rewrite (authenticateJWT_header SECRET_KEY c h Hh).
    destruct (jwt_verify (authToken h) SECRET_KEY) as [e|p] eqn:Hv; simpl.
    + split_and!; [done..|]. by rewrite (authenticateJWT_header SECRET_KEY c h Hh), Hv.
    + split_and!; [done..|].
      by rewrite (authenticateJWT_header SECRET_KEY (with_user p c) h Hh), Hv.
  - rewrite authenticateJWT_no_header by done. simpl.
    split_and!; [done..|]. by rewrite authenticateJWT_no_header.
Qed.

(** X4: whatever the user row holds (an id, a password hash, a name), the
    claims that come back from a token of [createToken] have no property
    besides [email], [role] and [iat], and their [email] and [role] are the
    user's. *)
Theorem issued_claims_fields (now : Z) (u : obj) (t : string) (claims : obj) :
  createToken SECRET_KEY now u = inr t ->
  jwt_verify t SECRET_KEY = inr claims ->
  (forall k, is_Some (claims !! k) -> k = "email" \/ k = "role" \/ k = "iat")
  /\ prop claims "email" = prop u "email"
  /\ prop claims "role" = prop u "role"
  /\ prop claims "iat" = JNum now.
Proof.
  intros Hs. rewrite (createToken_verify SECRET_KEY now u t Hs). intros [= <-].
  split_and!.
  - intros k [v Hv].
    destruct (decide (k = "iat")) as [|Hi]; [auto|].
    destruct (decide (k = "email")) as [|He]; [auto|].
    destruct (decide (k = "role")) as [|Hr]; [auto|].
    rewrite lookup_insert_ne, json_roundtrip_lookup in Hv by done.
    unfold payload_of in Hv.
    rewrite lookup_insert_ne, lookup_singleton_ne in Hv by done. done.
  - apply issued_claims_prop. auto.
  - apply issued_claims_prop. auto.
  - unfold prop. by rewrite lookup_insert_eq.
Qed.

End Pipeline.

(** X5: how the predicates are ordered.  Who passes [ensureCorrectUser]
    passes [ensureLoggedIn]; [ensureSuperAdminOrCorrectUser] passes exactly
    those who pass [ensureSuperAdmin] or [ensureCorrectUser]. *)
Theorem predicate_order (c : Ctx) :
  (gate ensureCorrectUser c = Next -> gate ensureLoggedIn c = Next)
  /\ (gate ensureSuperAdminOrCorrectUser c = Next <->
      gate ensureSuperAdmin c = Next \/ gate ensureCorrectUser c = Next).
Proof.
  unfold gate.
  rewrite ensureLoggedIn_run, ensureSuperAdmin_run, ensureCorrectUser_run,
    ensureSuperAdminOrCorrectUser_run. simpl.
  destruct (truthy _); destruct (strict_eq _ (JStr "super_admin"));
    destruct (strict_eq _ _); simpl; split; try done; split; auto;
    intros [?|?]; done.
Qed.

(** No path of [routes/databases.js] has a parameter [email]. *)
Lemma databases_no_email (e : Routes.entry) :
  e ∈ Routes.databases -> "email" ∉ Routes.path_params (Routes.r_path e).
Proof.
  unfold Routes.databases. rewrite !elem_of_cons, elem_of_nil.
  intros [->|[->|[->|[->|[->|[->|[]]]]]]] Hin;
    apply list_elem_of_In in Hin; vm_compute in Hin; intuition discriminate.
Qed.

(** X6: every route of [routes/databases.js] is guarded, and its guard
    passes exactly the identities whose role is ['super_admin'].  The routes
    under [ensureSuperAdminOrCorrectUser] have the parameters [id] or
    [userId] and none called [email], so the comparison with
    [req.params.email] never holds there. *)
Theorem databases_routes_admin_only (db : Db) (e : Routes.entry) (c : Ctx) :
  e ∈ Routes.databases ->
  Routes.matched e c ->
  exists g,
    Routes.r_guard e = Some g
    /\ (gate (predicate_mw db g) c = Next <->
        opt_prop (user (locals (res c))) "role" = JStr "super_admin").
Proof.
  intros He Hm.
  assert (params (req c) !! "email" = None) as Hp.
  { destruct (params (req c) !! "email") eqn:E; [|done].
    destruct (databases_no_email e He). apply Hm. by rewrite E. }
  assert (gate ensureSuperAdmin c = Next <->
          opt_prop (user (locals (res c))) "role" = JStr "super_admin") as Hadmin.
  { unfold gate. rewrite ensureSuperAdmin_run. simpl.
    rewrite <- strict_eq_str. by destruct (strict_eq _ _). }
  assert (gate ensureSuperAdminOrCorrectUser c = gate ensureSuperAdmin c) as Hsame.
  { unfold gate. rewrite ensureSuperAdminOrCorrectUser_run, ensureSuperAdmin_run.
    simpl. unfold str_prop. rewrite Hp.
    destruct (strict_eq _ (JStr "super_admin")); simpl; [done|].
    destruct (opt_prop _ "email"); simpl; try done.
    - by destruct b.
    - by rewrite andb_false_r.
    - by rewrite andb_false_r. }
  unfold Routes.databases in He. rewrite !elem_of_cons, elem_of_nil in He.
  destruct He as [->|[->|[->|[->|[->|[->|[]]]]]]]; simpl;
    eexists; (split; [reflexivity|]); simpl; by rewrite ?Hsame.
Qed.

(** X7: of all the routes of the four routers, three have no predicate
    before the handler: [POST /token] and [POST /register] of
    [routes/auth.js] and [GET /:id] of [routes/apps.js].  On every other
    route a request without identity is answered with Unauthorized and the
    handler does not run. *)
Theorem anonymous_routes (db : Db) (e : Routes.entry) (c : Ctx) :
  e ∈ (Routes.auth ++ Routes.users ++ Routes.databases ++ Routes.apps)%list ->
  user (locals (res c)) = None ->
  (Routes.r_guard e = None
   /\ e ∈ [Routes.mkEntry Routes.POST "/token" None;
           Routes.mkEntry Routes.POST "/register" None;
           Routes.mkEntry Routes.GET "/:id" None])
  \/ (exists g m,
        Routes.r_guard e = Some g
        /\ forall R (handler : Eff R),
             route (predicate_mw db g) handler c
             = (inl (UnauthorizedError m), (predicate_mw db g c).2)).
Proof.
  intros He Hu.
  destruct (Routes.r_guard e) as [g|] eqn:Hg.
  - right.
    assert (exists m, gate (predicate_mw db g) c = NextErr (UnauthorizedError m)) as [m Hm].
    { unfold gate. destruct g; simpl.
      - rewrite ensureLoggedIn_run, Hu. simpl. eauto.
      - rewrite ensureSuperAdmin_run, Hu. simpl. eauto.
      - rewrite ensureCorrectUser_run, Hu. simpl. eauto.
      - rewrite ensureSuperAdminOrCorrectUser_run, Hu. simpl. eauto.
      - rewrite ensureDatabaseUser_run, Hu. simpl. eauto. }
    exists g, m. split; [done|]. intros R handler. by apply route_rejected.
  - left. split; [done|].
    unfold Routes.auth, Routes.users, Routes.databases, Routes.apps in He.
    simpl in He. rewrite !elem_of_cons, elem_of_nil in He.
    rewrite !elem_of_cons.
    repeat (destruct He as [->|He]; [simpl in Hg; try discriminate Hg; auto|]).
    done.
Qed.

(** ** More of the program: the SQL helper *)

Section SqlHelper.

Variable inherited : string -> option string.

Lemma clauses_lookup (keys : list string) (m : gmap string string) (i : nat) :
  Sql.clauses inherited keys m !! i
  = (fun k => dquote ++ Sql.column inherited m k ++ dquote ++ "=$" ++ pretty (i + 1)%nat)
      <$> keys !! i.
Proof. unfold Sql.clauses. by rewrite list_lookup_imap. Qed.

Lemma placeholder_inj (i j : nat) : "$" ++ pretty i = "$" ++ pretty j -> i = j.
Proof. intros [= H]. by apply (inj pretty) in H. Qed.

(** X8: [sqlForPartialUpdate] throws [BadRequestError] exactly on data
    without keys.  Otherwise [values] are the values of the data in the order
    of its keys, [setCols] joins one clause per key, and the clause at
    position [i] is the quoted column of key [i], [=] and the placeholder
    [$(i+1)], so that each placeholder is the position of its value, counted
    from one; the placeholders of two clauses differ. *)
Theorem sqlForPartialUpdate_alignment (data : record) (m : gmap string string) :
  (data = [] <->
   Sql.sqlForPartialUpdate inherited data m = inl (BadRequestError "No data to update"))
  /\ (data <> [] ->
      Sql.sqlForPartialUpdate inherited data m
      = inr (js_join ", " (Sql.clauses inherited data.*1 m), data.*2))
  /\ length (Sql.clauses inherited data.*1 m) = length data.*2
  /\ (forall i k v,
        data !! i = Some (k, v) ->
        Sql.clauses inherited data.*1 m !! i
        = Some (dquote ++ Sql.column inherited m k ++ dquote ++ "=$" ++ pretty (i + 1)%nat)
        /\ data.*2 !! i = Some v)
  /\ (forall i j, "$" ++ pretty (i + 1)%nat = "$" ++ pretty (j + 1)%nat -> i = j).
Proof.
  split_and!.
  - destruct data as [|[k v] data]; simpl; split; done.
  - by destruct data as [|[k v] data].
  - unfold Sql.clauses. by rewrite length_imap, !length_fmap.
  - intros i k v Hi. rewrite clauses_lookup, !list_lookup_fmap, Hi. done.
  - intros i j H. apply placeholder_inj in H. lia.
Qed.

(** The column of a key is the name that [jsToSql] gives it when that
    name is not empty, and the key itself when [jsToSql] has no entry for
    it and the key is no inherited property name.  With the table of
    [User.update], [fullName] and [isActive] become [full_name] and
    [is_active]; with the empty table of [Database.update] a key stays as it
    is. *)
Lemma sql_column_mapping (m : gmap string string) (k : string) :
  (forall s, m !! k = Some s -> s <> "" -> Sql.column inherited m k = s)
  /\ (m !! k = None -> inherited k = None -> Sql.column inherited m k = k)
  /\ (m !! k = Some "" -> Sql.column inherited m k = k)
  /\ Sql.column inherited {[ "fullName" := "full_name"; "isActive" := "is_active" ]}
       "fullName" = "full_name"
  /\ Sql.column inherited {[ "fullName" := "full_name"; "isActive" := "is_active" ]}
       "isActive" = "is_active"
  /\ (inherited k = None -> Sql.column inherited ∅ k = k).
Proof.
  unfold Sql.column. split_and!.
  - intros s -> Hs. by destruct (String.eqb_spec s "").
  - by intros -> ->.
  - by intros ->.
  - done.
  - done.
  - intros ->. by rewrite lookup_empty.
Qed.

End SqlHelper.

(** The example of the comment in [helpers/sql.js]. *)
Example sqlForPartialUpdate_doc :
  Sql.sqlForPartialUpdate EnvRef.inherited
    [("firstName", JStr "Aliya"); ("age", JNum 32)] {[ "firstName" := "first_name" ]}
  = inr (dquote ++ "first_name" ++ dquote ++ "=$1, " ++ dquote ++ "age" ++ dquote ++ "=$2",
         [JStr "Aliya"; JNum 32]).
Proof. vm_compute. reflexivity. Qed.

(** ** More of the program: the models *)

Ltac run_unfold :=
  unfold Run.bind, Run.try_catch, Run.throw, Run.ret, Run.emit, Run.query,
    Run.hash, Run.compare in *.

Section ModelProperties.

Context {E : Env}.

(** X9: [Database.create] sends the [INSERT] exactly when the check for the
    url found no row.  When the check finds a row, the function throws
    [BadRequestError] and the check is the only statement it has sent; when
    it finds none, the [INSERT] with the name and the url follows, and the
    result is the first row of its answer. *)
Theorem Database_create_checks_first (arg : record) (w : World) :
  let name := field arg "name" in
  let url := field arg "url" in
  (forall row rows s,
     db_exec Database.sql_duplicate [url] (store w) = (inr (row :: rows), s) ->
     Database.create arg w
     = (inl (BadRequestError "Duplicate database name or URL"),
        mkWorld s (queries w ++ [(Database.sql_duplicate, [url])])%list (terminal w)))
  /\ (forall s,
        db_exec Database.sql_duplicate [url] (store w) = (inr [], s) ->
        queries (Database.create arg w).2
        = (queries w ++ [(Database.sql_duplicate, [url]);
                         (Database.sql_insert, [name; url])])%list
        /\ forall rows s',
             db_exec Database.sql_insert [name; url] s = (inr rows, s') ->
             (Database.create arg w).1 = inr (head rows))
  /\ (forall cause s,
        db_exec Database.sql_duplicate [url] (store w) = (inl cause, s) ->
        Database.create arg w
        = (inl (Raised (DataAccessError cause)),
           mkWorld s (queries w ++ [(Database.sql_duplicate, [url])])%list (terminal w))).
Proof.
  intros name url. unfold Database.create. run_unfold. fold name url. split_and!.
  - intros row rows s ->. done.
  - intros s ->. simpl.
    destruct (db_exec Database.sql_insert [name; url] s) as [[cause|rows] s'] eqn:Hi;
      simpl; rewrite <- app_assoc; (split; [done|]); intros rows' s''; [done|].
    by intros [= -> ->].
  - intros cause s ->. done.
Qed.

(** X10: on an empty table [Database.getAll] throws [NotFoundError], and
    [User.getAll] returns the empty list: its test [!users] is on an array,
    which is never falsy, so it throws [NotFoundError] on no answer of the
    store. *)
Theorem getAll_on_empty (w : World) :
  (forall s,
     db_exec Database.sql_getAll [] (store w) = (inr [], s) ->
     (Database.getAll w).1 = inl (NotFoundError "No databases found"))
  /\ (forall s,
        db_exec User.sql_getAll [] (store w) = (inr [], s) ->
        (User.getAll w).1 = inr [])
  /\ (forall m, (User.getAll w).1 <> inl (NotFoundError m))
  /\ (forall rows s,
        db_exec User.sql_getAll [] (store w) = (inr rows, s) ->
        (User.getAll w).1 = inr rows).
Proof.
  unfold Database.getAll, User.getAll. run_unfold. split_and!.
  - by intros s ->.
  - by intros s ->.
  - intros m. by destruct (db_exec User.sql_getAll [] (store w)) as [[cause|rows] s].
  - by intros rows s ->.
Qed.

(** X11: an update with no data never reaches the store.  [Database.update]
    and [User.update] throw the [BadRequestError] of [sqlForPartialUpdate]
    and leave the world as it was: no statement is sent. *)
Theorem update_without_data (key : jsval) (w : World) :
  Database.update key [] w = (inl (BadRequestError "No data to update"), w)
  /\ User.update key [] w = (inl (BadRequestError "No data to update"), w).
Proof. split; reflexivity. Qed.

(** X12: the statement that [Database.update] sends for data with at least
    one key.  Its values are the values of the data followed by the id; the
    placeholder in [WHERE] is [$(n+1)] for [n] keys, which is the position of
    the id among the values and the placeholder of no [SET] clause.  It is
    the only statement sent. *)
Theorem Database_update_statement (id : jsval) (data : record) (w : World) :
  data <> [] ->
  let n := length data in
  let setCols := js_join ", " (Sql.clauses inherited_text data.*1 ∅) in
  queries (Database.update id data w).2
  = (queries w ++ [(Database.sql_update setCols ("$" ++ pretty (n + 1)%nat),
                    data.*2 ++ [id])])%list
  /\ (data.*2 ++ [id])%list !! n = Some id
  /\ length (data.*2 ++ [id])%list = (n + 1)%nat
  /\ (forall i, (i < n)%nat ->
        "$" ++ pretty (i + 1)%nat <> "$" ++ pretty (n + 1)%nat).
Proof.
  intros Hne n setCols. split_and!.
  - unfold Database.update.
    destruct (sqlForPartialUpdate_alignment inherited_text data ∅) as (_ & Hs & _).
    rewrite (Hs Hne). run_unfold. rewrite length_fmap. fold n setCols.
    destruct (db_exec _ _ _) as [[cause|rows] s]; simpl; [done|].
    by destruct (head rows).
  - rewrite lookup_app_r by (rewrite length_fmap; lia).
    rewrite length_fmap. by replace (n - length data)%nat with 0%nat by lia.
  - rewrite length_app, length_fmap. simpl. lia.
  - intros i Hi H. apply placeholder_inj in H. lia.
Qed.

(** The value of a key that the record has is replaced where it stands. *)
Lemma set_field_lookup (o : record) (k : string) (v : jsval) (i : nat) (k' : string)
    (v' : jsval) :
  NoDup o.*1 ->
  o !! i = Some (k', v') ->
  set_field o k v !! i = Some (k', if String.eqb k' k then v else v').
Proof.
  revert i. induction o as [|[k0 v0] o IH]; intros i Hnd Hi; [done|].
  rewrite fmap_cons in Hnd. apply NoDup_cons in Hnd as [Hnotin Hnd].
  cbn [set_field]. destruct i as [|i].
  - injection Hi as -> ->. by destruct (String.eqb k' k).
  - change (o !! i = Some (k', v')) in Hi.
    destruct (String.eqb_spec k0 k) as [->|Hne].
    + change (o !! i = Some (k', if String.eqb k' k then v else v')).
      rewrite Hi. destruct (String.eqb_spec k' k) as [->|]; [|done].
      destruct Hnotin. apply list_elem_of_fmap. exists (k, v'). split; [done|].
      by eapply list_elem_of_lookup_2.
    + change (set_field o k v !! i = Some (k', if String.eqb k' k then v else v')).
      by apply IH.
Qed.

Lemma set_field_keys (o : record) (k : string) (v : jsval) :
  (set_field o k v).*1 = o.*1.
Proof.
  induction o as [|[k0 v0] o IH]; [done|]. cbn [set_field].
  destruct (String.eqb k0 k); rewrite !fmap_cons; [done|]. by rewrite IH.
Qed.

(** X13: [User.update] hashes a password before anything is sent.  For
    data with a truthy [password], the one statement sent carries the data's
    values with the hash in the place of the password, followed by the
    email; every other value is as given.  When [bcrypt.hash] rejects,
    nothing is sent. *)
Theorem User_update_hashes_password (email : jsval) (data : record) (w : World) :
  NoDup data.*1 ->
  truthy (field data "password") = true ->
  (forall h,
     bcrypt_hash (field data "password") BCRYPT_WORK_FACTOR = inr h ->
     exists text values,
       queries (User.update email data w).2
       = (queries w ++ [(text, values ++ [email])])%list
       /\ length values = length data
       /\ forall i k v,
            data !! i = Some (k, v) ->
            values !! i = Some (if String.eqb k "password" then JStr h else v))
  /\ (forall cause,
        bcrypt_hash (field data "password") BCRYPT_WORK_FACTOR = inl cause ->
        User.update email data w = (inl (BcryptError cause), w)).
Proof.
  intros Hnd Ht. unfold User.update. run_unfold. rewrite Ht. split.
  - intros h ->.
    assert (set_field data "password" (JStr h) <> []) as Hne.
    { destruct data as [|[k v] data]; [done|]. simpl. by destruct (String.eqb k "password"). }
    destruct (sqlForPartialUpdate_alignment inherited_text
                (set_field data "password" (JStr h))
                {[ "fullName" := "full_name"; "isActive" := "is_active" ]})
      as (_ & Hs & _).
    rewrite (Hs Hne).
    eexists _, (set_field data "password" (JStr h)).*2. split_and!.
    + destruct (db_exec _ _ _) as [[cause|rows] s]; simpl; [done|].
      by destruct (head rows).
    + rewrite length_fmap, <- (length_fmap fst), set_field_keys, length_fmap. done.
    + intros i k v Hi. rewrite list_lookup_fmap.
      by rewrite (set_field_lookup data "password" (JStr h) i k v Hnd Hi).
  - by intros cause ->.
Qed.

End ModelProperties.

Section StartupProperties.

Context {E : Env}.

(** X14: [Database.createMainDatabase] does not create a second [main].
    When the store already links a database named [main] to the user, the
    function returns its first row, prints that it exists and has sent that
    one query only.  When no such link exists but a database with the url
    [main] does, [Database.create] refuses: the function prints and throws
    [BadRequestError], and no [INSERT] was sent. *)
Theorem createMainDatabase_existing (userId : jsval) (w : World) :
  (forall row rows s,
     db_exec Database.sql_main [JStr "main"; userId] (store w) = (inr (row :: rows), s) ->
     Database.createMainDatabase userId w
     = (inr (Some row),
        mkWorld s
          (queries w ++ [(Database.sql_main, [JStr "main"; userId])])%list
          (terminal w ++ [ConsoleLog "Main database already exists for user with ID:"
                            [ShownValue userId]])%list))
  /\ (forall s row rows s',
        db_exec Database.sql_main [JStr "main"; userId] (store w) = (inr [], s) ->
        db_exec Database.sql_duplicate [JStr "main"] s = (inr (row :: rows), s') ->
        Database.createMainDatabase userId w
        = (inl (BadRequestError "Duplicate database name or URL"),
           mkWorld s'
             (queries w ++ [(Database.sql_main, [JStr "main"; userId]);
                            (Database.sql_duplicate, [JStr "main"])])%list
             (terminal w
              ++ [ConsoleError "Error creating main database:"
                    [ShownFailure (BadRequestError "Duplicate database name or URL")]])%list)).
Proof.
  split.
  - intros row rows s Hq. unfold Database.createMainDatabase. run_unfold. by rewrite Hq.
  - intros s row rows s' Hq Hd.
    unfold Database.createMainDatabase, Database.create. run_unfold.
    rewrite Hq. simpl. rewrite Hd. simpl. by rewrite <- app_assoc.
Qed.


(** X16: [User.initializeSuperAdmin] never throws.  When a super admin
    exists it returns [undefined] after its one query, with nothing
    registered and nothing printed; when anything inside fails, it prints the
    error and returns [undefined] as well. *)
Theorem initializeSuperAdmin_never_throws (w : World) :
  (exists r, (User.initializeSuperAdmin w).1 = inr r)
  /\ (forall row rows s,
        db_exec User.sql_superAdmin [] (store w) = (inr (row :: rows), s) ->
        User.initializeSuperAdmin w
        = (inr None,
           mkWorld s (queries w ++ [(User.sql_superAdmin, [])])%list (terminal w)))
  /\ (forall cause s,
        db_exec User.sql_superAdmin [] (store w) = (inl cause, s) ->
        User.initializeSuperAdmin w
        = (inr None,
           mkWorld s (queries w ++ [(User.sql_superAdmin, [])])%list
             (terminal w ++ [ConsoleError "Error initializing super admin:"
                               [ShownFailure (Raised (DataAccessError cause))]])%list)).
Proof.
  split_and!.
  - unfold User.initializeSuperAdmin, User.register. run_unfold.
    destruct (db_exec User.sql_superAdmin _ _) as [[c1|r1] s1]; simpl; [eauto|].
    destruct (length r1 =? 0)%nat; simpl; [|eauto].
    destruct (db_exec User.sql_duplicate _ _) as [[c2|r2] s2]; simpl; [eauto|].
    destruct (0 <? length r2)%nat; simpl; [eauto|].
    destruct (bcrypt_hash _ _) as [c3|h]; simpl; [eauto|].
    destruct (db_exec User.sql_insert _ _) as [[c4|r4] s4]; simpl; eauto.
  - intros row rows s Hq. unfold User.initializeSuperAdmin. run_unfold. by rewrite Hq.
  - intros cause s Hq. unfold User.initializeSuperAdmin. run_unfold. by rewrite Hq.
Qed.

(** The line that [addUserToDatabase] prints is not the line of success of
    [startServer], whatever the three values print as. *)
Lemma added_line_differs (a rest : string) :
  "User " ++ a ++ " added to database " ++ rest
  <> "User added to main database successfully.".
Proof.
  intros H. simpl in H. injection H as H.
  do 36 (destruct a as [|? a]; simpl in H; [congruence|injection H as _ H]).
  destruct a; discriminate H.
Qed.

(** The events that [startServer] can add to the terminal, one by one. *)
Definition startup_event (e : event) : Prop :=
  match e with
  | ConsoleLog label _ => label <> "User added to main database successfully."
  | _ => True
  end.

(** X17: [startServer] never throws, and it never prints "User added to
    main database successfully.": the line is under [if (userDb)], and
    [userDb] is the value of [addUserToDatabase], which is [undefined]. *)
Theorem startServer_never_reports_success (w : World) :
  (startServer w).1 = inr tt
  /\ exists out,
       terminal (startServer w).2 = (terminal w ++ out)%list
       /\ ConsoleLog "User added to main database successfully." [] ∉ out.
Proof.
  assert (forall l : list event, Forall startup_event l ->
            ConsoleLog "User added to main database successfully." [] ∉ l) as Hno.
  { intros l Hl Hin. rewrite Forall_forall in Hl. by apply Hl in Hin. }
  unfold startServer, User.initializeSuperAdmin, User.register,
    Database.createMainDatabase, Database.create, Database.addUserToDatabase.
  run_unfold.
  repeat
    (simpl;
     match goal with
     | |- context [db_exec ?t ?v ?s] =>
         let c := fresh "c" in let r := fresh "r" in let s' := fresh "s" in
         destruct (db_exec t v s) as [[c|r] s']
     | |- context [bcrypt_hash ?d ?n] =>
         let c := fresh "c" in let h := fresh "h" in
         destruct (bcrypt_hash d n) as [c|h]
     | |- context [(length ?l =? 0)%nat] => destruct l
     | |- context [(0 <? length ?l)%nat] => destruct l
     | |- context [head ?l] => destruct l
     end);
    simpl; (split; [reflexivity|]);
    rewrite <- ?app_assoc; simpl;
    (eexists; split; [reflexivity|]); apply Hno; repeat constructor;
    try done; apply added_line_differs.
Qed.

(** X18: with a super admin in the store, [startServer] sends its one
    query, creates no database and listens. *)
Theorem startServer_with_super_admin (w : World) (row : obj) (rows : list obj)
    (s : Store) :
  db_exec User.sql_superAdmin [] (store w) = (inr (row :: rows), s) ->
  startServer w
  = (inr tt,
     mkWorld s (queries w ++ [(User.sql_superAdmin, [])])%list
       (terminal w ++ [ConsoleLog "Super Admin user:" [ShownRow None]; Listen PORT])%list).
Proof.
  intros Hq. unfold startServer, User.initializeSuperAdmin. run_unfold.
  rewrite Hq. simpl. by rewrite <- app_assoc.
Qed.

(** X19: [User.authenticate] returns no password, and its refusal does not
    tell an unknown email from a wrong password: both are the same
    [UnauthorizedError].  The row it returns has no property [password];
    what it throws is that error, or the rejection of the store or of
    [bcrypt]. *)
Theorem authenticate_hides_password (email password : jsval) (w : World) :
  (forall u w', User.authenticate email password w = (inr u, w') -> u !! "password" = None)
  /\ (forall s,
        db_exec User.sql_authenticate [email] (store w) = (inr [], s) ->
        (User.authenticate email password w).1
        = inl (Raised (UnauthorizedError (Some "Invalid username/password"))))
  /\ (forall row rows s,
        db_exec User.sql_authenticate [email] (store w) = (inr (row :: rows), s) ->
        bcrypt_compare password (prop row "password") = inr false ->
        (User.authenticate email password w).1
        = inl (Raised (UnauthorizedError (Some "Invalid username/password"))))
  /\ (forall f w',
        User.authenticate email password w = (inl f, w') ->
        f = Raised (UnauthorizedError (Some "Invalid username/password"))
        \/ (exists cause, f = Raised (DataAccessError cause))
        \/ (exists cause, f = BcryptError cause)).
Proof.
  unfold User.authenticate. run_unfold. split_and!.
  - intros u w'.
    destruct (db_exec _ _ _) as [[c|[|row rows]] s]; simpl; try done.
    destruct (bcrypt_compare _ _) as [c|[]]; simpl; try done.
    intros [= <- <-]. apply lookup_delete_eq.
  - by intros s ->.
  - intros row rows s -> Hc. simpl. by rewrite Hc.
  - intros f w'.
    destruct (db_exec _ _ _) as [[c|[|row rows]] s]; simpl.
    + intros [= <- <-]. eauto.
    + intros [= <- <-]. eauto.
    + destruct (bcrypt_compare _ _) as [c|[]]; simpl; intros [= <- <-]; eauto.
Qed.

(** X20: [App.create], in the version whose values name [url] and
    [category], never returns and never sends the [INSERT]: the check for the
    name is the one statement it sends, and when the check finds no row the
    function throws on reading [url]. *)
Theorem App_create_never_inserts (arg : record) (w : World) :
  (exists f, (App.create arg w).1 = inl f)
  /\ queries (App.create arg w).2
     = (queries w ++ [(App.sql_duplicate, [field arg "name"])])%list
  /\ (forall s,
        db_exec App.sql_duplicate [field arg "name"] (store w) = (inr [], s) ->
        (App.create arg w).1 = inl (ReferenceError "url")).
Proof.
  unfold App.create. run_unfold.
  destruct (db_exec _ _ _) as [[c|[|row rows]] s] eqn:Hq; simpl;
    (split_and!; [eauto|done|]); intros s'; try done.
Qed.

End StartupProperties.

(** ** More of the program, on sample requests and stores *)

(** X1 on a request with no identity that asks for a user's record. *)
Lemma anonymous_is_rejected_witness :
  exists m,
    gate (predicate_mw (PgRef.db store_up) SubjectMatch)
      (ctx_of [] [("email", "ada@erp.io")] None)
    = NextErr (UnauthorizedError m)
    /\ response_status (UnauthorizedError m) = 401%Z.
Proof.
  destruct (anonymous_is_rejected key (PgRef.db store_up) SubjectMatch
              (ctx_of [] [("email", "ada@erp.io")] None) eq_refl) as [H _].
  exact H.
Defined.

(** X2 on the token of [ada]: she is logged in. *)
Lemma issued_token_decisions_witness :
  match createToken key clock ada with
  | inr t =>
      gate ensureLoggedIn
        (authenticateJWT key (ctx_of [("authorization", "Bearer " ++ t)] [] None)).2
      = Next
  | inl _ => False
  end.
Proof.
  destruct (createToken key clock ada) as [e|t] eqn:Hs.
  { vm_compute in Hs. discriminate Hs. }
  destruct (issued_token_decisions key clock ada t
              (ctx_of [("authorization", "Bearer " ++ t)] [] None) Hs)
    as [Hlogged _].
  - unfold ctx_of. simpl. apply lookup_insert_eq.
  - apply Hlogged. reflexivity.
Defined.

(** X4 on the token of [ada]. *)
Lemma issued_claims_fields_witness :
  match createToken key clock ada with
  | inr t =>
      match jwt_verify t key with
      | inr claims => prop claims "email" = JStr "ada@erp.io"
      | inl _ => False
      end
  | inl _ => False
  end.
Proof.
  destruct (createToken key clock ada) as [e|t] eqn:Hs.
  { vm_compute in Hs. discriminate Hs. }
  destruct (jwt_verify t key) as [e|claims] eqn:Hv.
  { vm_compute in Hs. injection Hs as <-. vm_compute in Hv. discriminate Hv. }
  destruct (issued_claims_fields key clock ada t claims Hs Hv) as (_ & He & _).
  exact He.
Defined.

Lemma matched_id_route :
  Routes.matched (Routes.mkEntry Routes.GET "/:id" (Some PrivilegedOrSubjectMatch))
    (ctx_of [] [("id", "9")] (Some ada)).
Proof.
  intros k. unfold ctx_of. simpl.
  change (Routes.path_params "/:id") with ["id"].
  rewrite list_elem_of_singleton.
  destruct (decide (k = "id")) as [->|Hne].
  - rewrite lookup_insert_eq. split; [done|eauto].
  - rewrite lookup_insert_ne, lookup_empty by done. split; [by intros [? ?]|done].
Defined.

(** X6 on [ada], a member who is no super admin, asking for a database. *)
Lemma databases_routes_admin_only_witness :
  gate ensureSuperAdminOrCorrectUser (ctx_of [] [("id", "9")] (Some ada)) <> Next.
Proof.
  destruct (databases_routes_admin_only (PgRef.db store_up)
              (Routes.mkEntry Routes.GET "/:id" (Some PrivilegedOrSubjectMatch))
              (ctx_of [] [("id", "9")] (Some ada)))
    as (g & Hg & Hiff).
  - unfold Routes.databases. rewrite !elem_of_cons. auto.
  - exact matched_id_route.
  - injection Hg as <-. intros H. apply Hiff in H. discriminate H.
Defined.

(** X7 on a request without identity that deletes a user. *)
Lemma anonymous_routes_witness :
  exists m,
    route ensureSuperAdminOrCorrectUser (Eff.ret tt)
      (ctx_of [] [("email", "ada@erp.io")] None)
    = (inl (UnauthorizedError m), ctx_of [] [("email", "ada@erp.io")] None).
Proof.
  destruct (anonymous_routes (PgRef.db store_up)
              (Routes.mkEntry Routes.DELETE "/:email" (Some PrivilegedOrSubjectMatch))
              (ctx_of [] [("email", "ada@erp.io")] None))
    as [[Hnone _]|(g & m & Hg & Hr)].
  - unfold Routes.auth, Routes.users. simpl. rewrite !elem_of_cons. auto 10.
  - reflexivity.
  - discriminate Hnone.
  - injection Hg as <-. exists m. apply (Hr unit (Eff.ret tt)).
Defined.

(** X12 on the change of a name. *)
Lemma Database_update_statement_witness :
  length (queries (Database.update (JNum 9) [("name", JStr "crm")] (EnvRef.world [])).2)
  = 1%nat.
Proof.
  destruct (Database_update_statement (JNum 9) [("name", JStr "crm")] (EnvRef.world []))
    as [Hq _]; [discriminate|].
  rewrite Hq. reflexivity.
Defined.

(** X13 on the change of a name and a password. *)
Lemma User_update_hashes_password_witness :
  exists text values,
    queries (User.update (JStr "ada@erp.io")
               [("fullName", JStr "Ada"); ("password", JStr "pw")] (EnvRef.world [])).2
    = [(text, (values ++ [JStr "ada@erp.io"])%list)]
    /\ values !! 1%nat = Some (JStr "$2b$pw").
Proof.
  destruct (User_update_hashes_password (JStr "ada@erp.io")
              [("fullName", JStr "Ada"); ("password", JStr "pw")] (EnvRef.world []))
    as [Hhash _].
  - apply (bool_decide_unpack _). vm_compute. exact I.
  - reflexivity.
  - destruct (Hhash "$2b$pw" eq_refl) as (text & values & Hq & _ & Hv).
    exists text, values. split; [exact Hq|].
    apply (Hv 1%nat "password" (JStr "pw")). reflexivity.
Defined.

(** X14 on a store that has the main database of user 7. *)
Lemma createMainDatabase_existing_witness :
  (Database.createMainDatabase (JNum 7) (EnvRef.world [inr [EnvRef.row_main]])).1
  = inr (Some EnvRef.row_main).
Proof.
  destruct (createMainDatabase_existing (JNum 7) (EnvRef.world [inr [EnvRef.row_main]]))
    as [Hexists _].
  rewrite (Hexists EnvRef.row_main [] []); reflexivity.
Defined.

(** X18 on a store that has a super admin. *)
Lemma startServer_with_super_admin_witness :
  terminal (startServer (EnvRef.world [inr [EnvRef.row_root]])).2
  = [ConsoleLog "Super Admin user:" [ShownRow None]; Listen (JNum 3000)].
Proof.
  rewrite (startServer_with_super_admin (EnvRef.world [inr [EnvRef.row_root]])
             EnvRef.row_root [] []); reflexivity.
Defined.

(** The first start on an empty store: the super admin is registered, the
    main database created and linked, and the server listens. *)
Example startServer_first_start :
  let w := (startServer (EnvRef.world [inr []; inr []; inr [EnvRef.row_root];
                                       inr []; inr []; inr [EnvRef.row_main]; inr []])).2 in
  (queries w).*1
  = [User.sql_superAdmin; User.sql_duplicate; User.sql_insert; Database.sql_main;
     Database.sql_duplicate; Database.sql_insert; Database.sql_addUser]
  /\ last (terminal w) = Some (Listen (JNum 3000)).
Proof. vm_compute. split; reflexivity. Qed.
